(** * Access control of the gazeta.uz backend

    A shallow embedding of the services that decide who may do what:
    [UserService] (role hierarchy, role change, identity deletion),
    [ArticleService] and [CommentService] (ownership or privileged role),
    [AuthService] (registration, login, token issuance).

    The Prisma client is modelled as a store of rows threaded through a
    state-and-exception monad; bcrypt and the JWT signer are interfaces. *)

From Stdlib Require Import ZArith List String Bool Lia DecimalString.
Import ListNotations.
Open Scope string_scope.
Open Scope Z_scope.

Set Implicit Arguments.

(* ================================================================== *)
(** ** Roles *)

(** The Prisma enum [Role] (migration: CREATE TYPE "Role"). *)
Inductive Role : Type :=
| SUPER_ADMIN
| ADMIN
| EDITOR
| REPORTER
| USER.

(** The string a role is at run time. *)
Definition role_name (r : Role) : string :=
  match r with
  | SUPER_ADMIN => "SUPER_ADMIN"
  | ADMIN => "ADMIN"
  | EDITOR => "EDITOR"
  | REPORTER => "REPORTER"
  | USER => "USER"
  end.

Definition Role_eqb (a b : Role) : bool :=
  match a, b with
  | SUPER_ADMIN, SUPER_ADMIN | ADMIN, ADMIN | EDITOR, EDITOR
  | REPORTER, REPORTER | USER, USER => true
  | _, _ => false
  end.

(* ================================================================== *)
(** ** Exceptions *)

(** The Nest HTTP exceptions the services throw, each with its message. *)
Inductive HttpException : Type :=
| BadRequestException (message : string)
| UnauthorizedException (message : string)
| ForbiddenException (message : string)
| NotFoundException (message : string)
| ConflictException (message : string).

(** The status Nest answers with. *)
Definition getStatus (e : HttpException) : Z :=
  match e with
  | BadRequestException _ => 400
  | UnauthorizedException _ => 401
  | ForbiddenException _ => 403
  | NotFoundException _ => 404
  | ConflictException _ => 409
  end.

(** [Prisma.PrismaClientKnownRequestError]: the code and the two [meta]
    fields the handlers read. *)
Record PrismaError : Type := mkPrismaError {
  code : string;
  meta_target : option string;
  meta_field_name : option string
}.

(** What a service call can throw. *)
Inductive Exn : Type :=
| Http (e : HttpException)
| PrismaClientKnownRequestError (e : PrismaError)
| TypeError (message : string).

(** [`${x || fallback}`] on an optional string. *)
Definition or_else (x : option string) (fallback : string) : string :=
  match x with
  | Some s => if String.eqb s "" then fallback else s
  | None => fallback
  end.

(** A number inside a template string. *)
Definition show (n : Z) : string := NilZero.string_of_int (Z.to_int n).

(** The [catch] block every resource service ends with: a known Prisma
    error becomes an HTTP exception, anything else is thrown again.
    [what] is the text of the P2002 branch, the only one that differs
    between methods. *)
Definition handlePrisma (what : string) (error : Exn) : Exn :=
  match error with
  | PrismaClientKnownRequestError e =>
      if String.eqb (code e) "P2002" then
        Http (ConflictException (what ++ ": " ++ or_else (meta_target e) "Record"))
      else if String.eqb (code e) "P2003" then
        Http (BadRequestException
                ("Foreign key constraint failed: " ++ or_else (meta_field_name e) "Field"))
      else if String.eqb (code e) "P2025" then
        Http (NotFoundException "Record not found")
      else Http (BadRequestException "Invalid request data")
  | _ => error
  end.

(* ================================================================== *)
(** ** Rows and the store *)

(** Table "User". The timestamp columns are read by no decision and are
    left out of the rows. *)
Record User : Type := mkUser {
  user_id : Z;
  user_email : string;
  user_password : string;
  user_fullName : string;
  user_avatar : option string;
  user_role : Role
}.

(** Table "Article". *)
Record Article : Type := mkArticle {
  article_id : Z;
  titleUz : string;
  titleRu : option string;
  contentUz : string;
  contentRu : option string;
  slug : string;
  thumbnail : option string;
  viewCount : Z;
  isPublished : bool;
  categoryId : Z;
  authorId : Z;
  newspaperId : option Z
}.

(** Table "Comment". *)
Record Comment : Type := mkComment {
  comment_id : Z;
  comment_text : string;
  comment_userId : Z;
  comment_articleId : Z
}.

(** The database: the rows of each table, the ids of the tables that are
    only referenced, and the SERIAL counter of "User". *)
Record Db : Type := mkDb {
  users : list User;
  articles : list Article;
  comments : list Comment;
  categories : list Z;
  newspapers : list Z;
  user_seq : Z
}.

Definition set_users (us : list User) (db : Db) : Db :=
  mkDb us (articles db) (comments db) (categories db) (newspapers db) (user_seq db).

Definition set_articles (xs : list Article) (db : Db) : Db :=
  mkDb (users db) xs (comments db) (categories db) (newspapers db) (user_seq db).

Definition set_comments (cs : list Comment) (db : Db) : Db :=
  mkDb (users db) (articles db) cs (categories db) (newspapers db) (user_seq db).

(* ================================================================== *)
(** ** The monad of a request: store passing with exceptions *)

Inductive Outcome (A : Type) : Type :=
| Return (a : A)
| Throw (e : Exn).

Arguments Return {A} a.
Arguments Throw {A} e.

Definition M (A : Type) : Type := Db -> Outcome A * Db.

Definition ret {A} (a : A) : M A := fun db => (Return a, db).

Definition throw {A} (e : Exn) : M A := fun db => (Throw e, db).

Definition bind {A B} (m : M A) (k : A -> M B) : M B :=
  fun db =>
    match m db with
    | (Return a, db') => k a db'
    | (Throw e, db') => (Throw e, db')
    end.

(** [try { body } catch (error) { throw handler(error) }]. *)
Definition try_catch {A} (body : M A) (handler : Exn -> Exn) : M A :=
  fun db =>
    match body db with
    | (Return a, db') => (Return a, db')
    | (Throw e, db') => (Throw (handler e), db')
    end.

Definition get : M Db := fun db => (Return db, db).

Definition put (db' : Db) : M unit := fun _ => (Return tt, db').

Declare Scope request_scope.
Delimit Scope request_scope with req.
Notation "x <- m ;; k" := (bind m (fun x => k))
  (at level 61, m at next level, right associativity) : request_scope.
Notation "m ;;; k" := (bind m (fun _ => k))
  (at level 61, right associativity) : request_scope.
Open Scope request_scope.

(** [if (c) throw e]. *)
Definition throw_if (c : bool) (e : HttpException) : M unit :=
  if c then throw (Http e) else ret tt.

(* ================================================================== *)
(** ** The Prisma client over the store *)

Module Prisma.

Definition P2002 (target : string) : Exn :=
  PrismaClientKnownRequestError (mkPrismaError "P2002" (Some target) None).

Definition P2003 (field_name : string) : Exn :=
  PrismaClientKnownRequestError (mkPrismaError "P2003" None (Some field_name)).

Definition P2025 : Exn :=
  PrismaClientKnownRequestError (mkPrismaError "P2025" None None).

(** *** prisma.user *)

Definition has_id (id : Z) (u : User) : bool := user_id u =? id.

Definition has_email (email : string) (u : User) : bool :=
  String.eqb (user_email u) email.

Definition user_findUnique_id (id : Z) : M (option User) :=
  db <- get ;; ret (find (has_id id) (users db)).

Definition user_findUnique_email (email : string) : M (option User) :=
  db <- get ;; ret (find (has_email email) (users db)).

(** The [data] of [user.create]; an absent role takes the column default. *)
Record UserCreateInput : Type := mkUserCreateInput {
  create_email : string;
  create_fullName : string;
  create_password : string;
  create_avatar : option string;
  create_role : option Role
}.

Definition column_default_role : Role := USER.

(** INSERT: the SERIAL counter is consumed first (and stays consumed when
    the unique index "User_email_key" rejects the row). *)
Definition user_create (data : UserCreateInput) : M User :=
  db <- get ;;
  let id := user_seq db + 1 in
  let db1 := mkDb (users db) (articles db) (comments db)
                  (categories db) (newspapers db) id in
  put db1 ;;;
  if existsb (has_email (create_email data)) (users db) then throw (P2002 "email")
  else
    let u := mkUser id (create_email data) (create_password data)
                    (create_fullName data) (create_avatar data)
                    (match create_role data with
                     | Some r => r
                     | None => column_default_role
                     end) in
    put (set_users (users db ++ [u]) db1) ;;;
    ret u.

(** The [data] of [user.update]: absent fields keep their value. *)
Record UserUpdateInput : Type := mkUserUpdateInput {
  update_email : option string;
  update_fullName : option string;
  update_password : option string;
  update_avatar : option string;
  update_role : option Role
}.

Definition keep {A} (new : option A) (old : A) : A :=
  match new with Some a => a | None => old end.

Definition apply_user_update (data : UserUpdateInput) (u : User) : User :=
  mkUser (user_id u)
         (keep (update_email data) (user_email u))
         (keep (update_password data) (user_password u))
         (keep (update_fullName data) (user_fullName u))
         (match update_avatar data with
          | Some a => Some a
          | None => user_avatar u
          end)
         (keep (update_role data) (user_role u)).

Definition email_taken_by_other (id : Z) (email : option string) (us : list User) : bool :=
  match email with
  | Some e => existsb (fun u => has_email e u && negb (has_id id u)) us
  | None => false
  end.

Definition user_update (id : Z) (data : UserUpdateInput) : M User :=
  db <- get ;;
  match find (has_id id) (users db) with
  | None => throw P2025
  | Some u =>
      if email_taken_by_other id (update_email data) (users db)
      then throw (P2002 "email")
      else
        put (set_users
               (map (fun x => if has_id id x then apply_user_update data x else x)
                    (users db)) db) ;;;
        ret (apply_user_update data u)
  end.

(** DELETE: "Article_authorId_fkey" is ON DELETE RESTRICT,
    "Comment_userId_fkey" is ON DELETE CASCADE. *)
Definition user_delete (id : Z) : M User :=
  db <- get ;;
  match find (has_id id) (users db) with
  | None => throw P2025
  | Some u =>
      if existsb (fun a => authorId a =? id) (articles db)
      then throw (P2003 "Article_authorId_fkey (index)")
      else
        put (mkDb (filter (fun x => negb (has_id id x)) (users db))
                  (articles db)
                  (filter (fun c => negb (comment_userId c =? id)) (comments db))
                  (categories db) (newspapers db) (user_seq db)) ;;;
        ret u
  end.

(** *** prisma.category and prisma.newspaper (only looked up) *)

Definition category_findUnique (id : Z) : M (option Z) :=
  db <- get ;; ret (find (Z.eqb id) (categories db)).

Definition newspaper_findUnique (id : Z) : M (option Z) :=
  db <- get ;; ret (find (Z.eqb id) (newspapers db)).

(** *** prisma.article *)

Definition article_findUnique (id : Z) : M (option Article) :=
  db <- get ;; ret (find (fun a => article_id a =? id) (articles db)).

Record ArticleUpdateInput : Type := mkArticleUpdateInput {
  set_titleUz : option string;
  set_titleRu : option string;
  set_contentUz : option string;
  set_contentRu : option string;
  set_slug : option string;
  set_thumbnail : option string;
  set_categoryId : option Z;
  set_authorId : option Z;
  set_isPublished : option bool;
  set_newspaperId : option Z
}.

Definition keep_opt {A} (new : option A) (old : option A) : option A :=
  match new with Some a => Some a | None => old end.

Definition apply_article_update (data : ArticleUpdateInput) (a : Article) : Article :=
  mkArticle (article_id a)
            (keep (set_titleUz data) (titleUz a))
            (keep_opt (set_titleRu data) (titleRu a))
            (keep (set_contentUz data) (contentUz a))
            (keep_opt (set_contentRu data) (contentRu a))
            (keep (set_slug data) (slug a))
            (keep_opt (set_thumbnail data) (thumbnail a))
            (viewCount a)
            (keep (set_isPublished data) (isPublished a))
            (keep (set_categoryId data) (categoryId a))
            (keep (set_authorId data) (authorId a))
            (keep_opt (set_newspaperId data) (newspaperId a)).

Definition slug_taken_by_other (id : Z) (s : option string) (xs : list Article) : bool :=
  match s with
  | Some s' => existsb (fun a => String.eqb (slug a) s' && negb (article_id a =? id)) xs
  | None => false
  end.

Definition missing_ref (ref : option Z) (ids : list Z) : bool :=
  match ref with
  | Some r => negb (existsb (Z.eqb r) ids)
  | None => false
  end.

Definition article_update (id : Z) (data : ArticleUpdateInput) : M Article :=
  db <- get ;;
  match find (fun a => article_id a =? id) (articles db) with
  | None => throw P2025
  | Some a =>
      if slug_taken_by_other id (set_slug data) (articles db)
      then throw (P2002 "slug")
      else if missing_ref (set_categoryId data) (categories db)
      then throw (P2003 "Article_categoryId_fkey (index)")
      else if missing_ref (set_authorId data) (map user_id (users db))
      then throw (P2003 "Article_authorId_fkey (index)")
      else if missing_ref (set_newspaperId data) (newspapers db)
      then throw (P2003 "Article_newspaperId_fkey (index)")
      else
        put (set_articles
               (map (fun x => if article_id x =? id
                              then apply_article_update data x else x)
                    (articles db)) db) ;;;
        ret (apply_article_update data a)
  end.

(** DELETE: "Comment_articleId_fkey" is ON DELETE CASCADE. *)
Definition article_delete (id : Z) : M Article :=
  db <- get ;;
  match find (fun a => article_id a =? id) (articles db) with
  | None => throw P2025
  | Some a =>
      put (mkDb (users db)
                (filter (fun x => negb (article_id x =? id)) (articles db))
                (filter (fun c => negb (comment_articleId c =? id)) (comments db))
                (categories db) (newspapers db) (user_seq db)) ;;;
      ret a
  end.

(** *** prisma.comment *)

Definition comment_findUnique (id : Z) : M (option Comment) :=
  db <- get ;; ret (find (fun c => comment_id c =? id) (comments db)).

Definition apply_comment_update (new_text : option string) (c : Comment) : Comment :=
  mkComment (comment_id c) (keep new_text (comment_text c)) (comment_userId c) (comment_articleId c).

Definition comment_update (id : Z) (new_text : option string) : M Comment :=
  db <- get ;;
  match find (fun c => comment_id c =? id) (comments db) with
  | None => throw P2025
  | Some c =>
      put (set_comments
             (map (fun x => if comment_id x =? id
                            then apply_comment_update new_text x else x)
                  (comments db)) db) ;;;
      ret (apply_comment_update new_text c)
  end.

Definition comment_delete (id : Z) : M Comment :=
  db <- get ;;
  match find (fun c => comment_id c =? id) (comments db) with
  | None => throw P2025
  | Some c =>
      put (set_comments
             (filter (fun x => negb (comment_id x =? id)) (comments db)) db) ;;;
      ret c
  end.

(** *** Further queries of prisma.user *)

(** [user.findFirst({ where: { role } })]. *)
Definition user_findFirst_role (r : Role) : M (option User) :=
  db <- get ;; ret (find (fun u => Role_eqb (user_role u) r) (users db)).

(** [user.count({ where: { role } })]. *)
Definition user_count_role (r : Role) : M Z :=
  db <- get ;;
  ret (Z.of_nat (List.length (filter (fun u => Role_eqb (user_role u) r) (users db)))).

(** *** Further queries of prisma.article *)

Definition has_slug (s : string) (a : Article) : bool := String.eqb (slug a) s.

Definition article_findUnique_slug (s : string) : M (option Article) :=
  db <- get ;; ret (find (has_slug s) (articles db)).

(** [article.findUnique({ where: { id, isPublished: true } })]. *)
Definition article_findUnique_published (id : Z) : M (option Article) :=
  db <- get ;;
  ret (find (fun a => (article_id a =? id) && isPublished a) (articles db)).

(** The largest value of an INTEGER column. *)
Definition INT_MAX : Z := 2147483647.

Definition P2020 : Exn :=
  PrismaClientKnownRequestError (mkPrismaError "P2020" None None).

Definition with_viewCount (n : Z) (a : Article) : Article :=
  mkArticle (article_id a) (titleUz a) (titleRu a) (contentUz a) (contentRu a)
            (slug a) (thumbnail a) n (isPublished a) (categoryId a) (authorId a)
            (newspaperId a).

(** [article.update({ where, data: { viewCount: { increment: 1 } } })], for
    the row that [selected] picks; the column is an INTEGER, so the
    increment of its largest value is refused (value out of range). *)
Definition article_increment_viewCount (selected : Article -> bool) : M Article :=
  db <- get ;;
  match find selected (articles db) with
  | None => throw P2025
  | Some a =>
      if INT_MAX <? viewCount a + 1 then throw P2020
      else
        put (set_articles
               (map (fun x => if selected x then with_viewCount (viewCount x + 1) x else x)
                    (articles db)) db) ;;;
        ret (with_viewCount (viewCount a + 1) a)
  end.

(** The [data] of [article.create]. *)
Record ArticleCreateInput : Type := mkArticleCreateInput {
  new_titleUz : string;
  new_titleRu : option string;
  new_contentUz : string;
  new_contentRu : option string;
  new_slug : string;
  new_thumbnail : option string;
  new_categoryId : Z;
  new_authorId : Z;
  new_isPublished : bool;
  new_newspaperId : option Z;
  new_viewCount : Z
}.

(** INSERT into "Article". [serial] is the value the SERIAL column "id"
    draws: the store keeps a counter for "User" only, so the draw is an
    argument here. The unique index on "slug" is checked as the row goes
    in, the foreign keys at the end of the statement. *)
Definition article_create (serial : Z) (data : ArticleCreateInput) : M Article :=
  db <- get ;;
  if existsb (has_slug (new_slug data)) (articles db) then throw (P2002 "slug")
  else if missing_ref (Some (new_categoryId data)) (categories db)
  then throw (P2003 "Article_categoryId_fkey (index)")
  else if missing_ref (Some (new_authorId data)) (map user_id (users db))
  then throw (P2003 "Article_authorId_fkey (index)")
  else if missing_ref (new_newspaperId data) (newspapers db)
  then throw (P2003 "Article_newspaperId_fkey (index)")
  else
    let a := mkArticle serial (new_titleUz data) (new_titleRu data)
                       (new_contentUz data) (new_contentRu data) (new_slug data)
                       (new_thumbnail data) (new_viewCount data)
                       (new_isPublished data) (new_categoryId data)
                       (new_authorId data) (new_newspaperId data) in
    put (set_articles (articles db ++ [a]) db) ;;;
    ret a.

(** *** Further queries of prisma.comment *)

(** INSERT into "Comment"; [serial] as for [article_create]. *)
Definition comment_create (serial : Z) (text : string) (userId articleId : Z)
    : M Comment :=
  db <- get ;;
  if missing_ref (Some userId) (map user_id (users db))
  then throw (P2003 "Comment_userId_fkey (index)")
  else if missing_ref (Some articleId) (map article_id (articles db))
  then throw (P2003 "Comment_articleId_fkey (index)")
  else
    let c := mkComment serial text userId articleId in
    put (set_comments (comments db ++ [c]) db) ;;;
    ret c.

End Prisma.

(* ================================================================== *)
(** ** Collaborators *)

(** bcrypt: [bcrypt.hash(plain, rounds)], [bcrypt.compare(plain, hash)] and
    the export [hashPassword] of utils/bcrypt.util. The salt a hash draws is
    fixed by the instance. *)
Class Bcrypt : Type := {
  bcrypt_hash : string -> Z -> string;
  bcrypt_compare : string -> string -> bool;
  hashPassword : string -> string
}.

(** The part of the Express request the services read. *)
Record Request : Type := mkRequest {
  protocol : string;
  host : string
}.

(** [constructAbsoluteUrl], the same private method in [UserService] and
    [ArticleService]. *)
Definition constructAbsoluteUrl (relativePath : string) (req : option Request) : string :=
  match req with
  | None => "http://localhost:3000" ++ relativePath
  | Some r => protocol r ++ "://" ++ host r ++ relativePath
  end.

(** A synchronous helper that throws or returns, run inside a request. *)
Definition lift {A} (o : Outcome A) : M A := fun db => (o, db).

(** Truthiness of an optional string. *)
Definition truthy_string (s : option string) : bool :=
  match s with
  | Some x => negb (String.eqb x "")
  | None => false
  end.

Definition is_some {A} (o : option A) : bool :=
  match o with Some _ => true | None => false end.

(** A user row without its password: what [select] keeps in [UserService]
    and what [const { password: _, ...result } = user] keeps in
    [AuthService]. *)
Record UserView : Type := mkUserView {
  view_id : Z;
  view_email : string;
  view_fullName : string;
  view_role : Role;
  view_avatar : option string
}.

Definition select (u : User) : UserView :=
  mkUserView (user_id u) (user_email u) (user_fullName u) (user_role u) (user_avatar u).

(* ================================================================== *)
(** ** UserService *)

Module UserService.

(** CreateUserDto. *)
Record CreateUserDto : Type := mkCreateUserDto {
  dto_email : string;
  dto_fullName : string;
  dto_password : string;
  dto_avatar : option string;
  dto_role : Role
}.

(** UpdateUserDto: the fields of CreateUserDto, each optional (the service
    takes it as [any] and reads [role], [password] and [avatar]). *)
Record UpdateUserDto : Type := mkUpdateUserDto {
  upd_email : option string;
  upd_fullName : option string;
  upd_password : option string;
  upd_avatar : option string;
  upd_role : option Role
}.

(** The own properties of the object literal [roleHierarchy]. *)
Definition roleHierarchy (key : string) : option (list string) :=
  if String.eqb key "SUPER_ADMIN" then Some ["ADMIN"; "EDITOR"; "REPORTER"; "USER"]
  else if String.eqb key "ADMIN" then Some ["EDITOR"; "REPORTER"; "USER"]
  else if String.eqb key "EDITOR" then Some ["REPORTER"; "USER"]
  else if String.eqb key "REPORTER" then Some ["USER"]
  else if String.eqb key "USER" then Some []
  else None.

(** The properties an object literal inherits from [Object.prototype]:
    none of them is an array. *)
Definition object_prototype_keys : list string :=
  ["constructor"; "hasOwnProperty"; "isPrototypeOf"; "propertyIsEnumerable";
   "toLocaleString"; "toString"; "valueOf"; "__proto__";
   "__defineGetter__"; "__defineSetter__"; "__lookupGetter__"; "__lookupSetter__"].

Inductive Property : Type :=
| Own (row : list string)
| Inherited
| Undefined.

(** [table[key]]. *)
Definition property (table : string -> option (list string)) (key : string) : Property :=
  match table key with
  | Some row => Own row
  | None =>
      if existsb (String.eqb key) object_prototype_keys then Inherited else Undefined
  end.

Definition includes (row : list string) (x : string) : bool :=
  existsb (String.eqb x) row.

(** [validateRoleCreation], with the hierarchy table as an argument. *)
Definition validateRoleCreationWith (table : string -> option (list string))
    (requestingUserRole targetRole : string) : Outcome unit :=
  if String.eqb targetRole "SUPER_ADMIN" then
    Throw (Http (ForbiddenException
                   "SUPER_ADMIN cannot be created through regular user creation"))
  else if String.eqb requestingUserRole "" then Return tt
  else
    let denied :=
      Throw (Http (ForbiddenException
                     ("Insufficient permissions to create user with role: "
                        ++ targetRole ++ ". Your role: " ++ requestingUserRole))) in
    match property table requestingUserRole with
    | Own row => if includes row targetRole then Return tt else denied
    | Undefined => denied
    | Inherited =>
        Throw (TypeError "roleHierarchy[requestingUserRole]?.includes is not a function")
    end.

Definition validateRoleCreation : string -> string -> Outcome unit :=
  validateRoleCreationWith roleHierarchy.

Definition validateRoleUpdate (requestingUserRole existingUserRole targetRole : string)
    (targetUserId requestingUserId : Z) : Outcome unit :=
  if String.eqb targetRole "SUPER_ADMIN" then
    Throw (Http (ForbiddenException "Cannot update user to SUPER_ADMIN role"))
  else if negb (String.eqb requestingUserRole "SUPER_ADMIN") then
    Throw (Http (ForbiddenException "Only SUPER_ADMIN can change user roles"))
  else if String.eqb existingUserRole "SUPER_ADMIN" then
    Throw (Http (ForbiddenException "Cannot modify SUPER_ADMIN role"))
  else if targetUserId =? requestingUserId then
    Throw (Http (ForbiddenException "You cannot change your own role"))
  else Return tt.

Section Methods.

Context {crypto : Bcrypt}.

Definition create (createUserDto : CreateUserDto)
    (requestingUserId : option Z) (requestingUserRole : option string) : M UserView :=
  try_catch
    (lift (validateRoleCreation (or_else requestingUserRole "")
                                (role_name (dto_role createUserDto))) ;;;
     let hashedPassword := bcrypt_hash (dto_password createUserDto) 10 in
     user <- Prisma.user_create
               (Prisma.mkUserCreateInput (dto_email createUserDto)
                  (dto_fullName createUserDto) hashedPassword
                  (dto_avatar createUserDto) (Some (dto_role createUserDto))) ;;
     ret (select user))
    (handlePrisma "User already exists").

Definition update (id : Z) (updateUserDto : UpdateUserDto)
    (requestingUserId : Z) (requestingUserRole : string)
    (req : option Request) : M UserView :=
  try_catch
    (found <- Prisma.user_findUnique_id id ;;
     match found with
     | None => throw (Http (NotFoundException ("User with ID " ++ show id ++ " not found")))
     | Some existingUser =>
         throw_if (String.eqb (role_name (user_role existingUser)) "SUPER_ADMIN"
                   && negb (String.eqb requestingUserRole "SUPER_ADMIN"))
                  (ForbiddenException "Cannot modify SUPER_ADMIN user") ;;;
         (match upd_role updateUserDto with
          | Some role =>
              if negb (String.eqb (role_name role) (role_name (user_role existingUser)))
              then lift (validateRoleUpdate requestingUserRole
                           (role_name (user_role existingUser)) (role_name role)
                           id requestingUserId)
              else ret tt
          | None => ret tt
          end) ;;;
         throw_if ((id =? requestingUserId) && is_some (upd_role updateUserDto))
                  (ForbiddenException "You cannot change your own role") ;;;
         let password :=
           if truthy_string (upd_password updateUserDto)
           then option_map (fun p => bcrypt_hash p 10) (upd_password updateUserDto)
           else upd_password updateUserDto in
         let avatar :=
           if truthy_string (upd_avatar updateUserDto)
           then option_map (fun a => constructAbsoluteUrl a req) (upd_avatar updateUserDto)
           else upd_avatar updateUserDto in
         updatedUser <- Prisma.user_update id
                          (Prisma.mkUserUpdateInput (upd_email updateUserDto)
                             (upd_fullName updateUserDto) password avatar
                             (upd_role updateUserDto)) ;;
         ret (select updatedUser)
     end)
    (handlePrisma "User already exists").

Definition remove (id : Z) (requestingUserId : Z) (requestingUserRole : string)
    : M string :=
  try_catch
    (found <- Prisma.user_findUnique_id id ;;
     match found with
     | None => throw (Http (NotFoundException ("User with ID " ++ show id ++ " not found")))
     | Some existingUser =>
         throw_if (String.eqb (role_name (user_role existingUser)) "SUPER_ADMIN")
                  (ForbiddenException "Cannot delete SUPER_ADMIN user") ;;;
         throw_if (id =? requestingUserId)
                  (ForbiddenException "You cannot delete your own account") ;;;
         _ <- Prisma.user_delete id ;;
         ret "User deleted successfully"
     end)
    (handlePrisma "User already exists").

End Methods.

(** [findOne]: the row without its password, its avatar made absolute. *)
Definition findOne (id : Z) (req : option Request) : M UserView :=
  try_catch
    (found <- Prisma.user_findUnique_id id ;;
     match found with
     | None => throw (Http (NotFoundException ("User with ID " ++ show id ++ " not found")))
     | Some user =>
         ret (mkUserView (user_id user) (user_email user) (user_fullName user)
                         (user_role user)
                         (if truthy_string (user_avatar user)
                          then option_map (fun a => constructAbsoluteUrl a req)
                                          (user_avatar user)
                          else None))
     end)
    (handlePrisma "User already exists").

End UserService.

(* ================================================================== *)
(** ** ArticleService *)

Module ArticleService.

(** UpdateArticleDto: the fields of CreateArticleDto, each optional. *)
Definition UpdateArticleDto : Type := Prisma.ArticleUpdateInput.

(** What [update] returns: the row with its thumbnail made absolute. *)
Definition withAbsoluteUrls (article : Article) (req : option Request) : Article :=
  mkArticle (article_id article) (titleUz article) (titleRu article)
            (contentUz article) (contentRu article) (slug article)
            (if truthy_string (thumbnail article)
             then option_map (fun t => constructAbsoluteUrl t req) (thumbnail article)
             else None)
            (viewCount article) (isPublished article) (categoryId article)
            (authorId article) (newspaperId article).

(** The guard shared by [update] and [remove]. *)
Definition not_author_nor_privileged (requestingUserRole : string)
    (existingArticle : Article) (requestingUserId : Z) : bool :=
  negb (String.eqb requestingUserRole "SUPER_ADMIN")
  && negb (String.eqb requestingUserRole "ADMIN")
  && negb (String.eqb requestingUserRole "EDITOR")
  && negb (authorId existingArticle =? requestingUserId).

Definition update (id : Z) (updateArticleDto : UpdateArticleDto)
    (requestingUserId : Z) (requestingUserRole : string)
    (req : option Request) : M Article :=
  try_catch
    (found <- Prisma.article_findUnique id ;;
     match found with
     | None =>
         throw (Http (NotFoundException ("Article with ID " ++ show id ++ " not found")))
     | Some existingArticle =>
         throw_if (not_author_nor_privileged requestingUserRole existingArticle
                                             requestingUserId)
                  (BadRequestException "You can only update your own articles") ;;;
         (match Prisma.set_categoryId updateArticleDto with
          | Some c =>
              if negb (c =? 0) then
                category <- Prisma.category_findUnique c ;;
                throw_if (negb (is_some category))
                         (NotFoundException
                            ("Category with ID " ++ show c ++ " not found"))
              else ret tt
          | None => ret tt
          end) ;;;
         (match Prisma.set_newspaperId updateArticleDto with
          | Some n =>
              if negb (n =? 0) then
                newspaper <- Prisma.newspaper_findUnique n ;;
                throw_if (negb (is_some newspaper))
                         (NotFoundException
                            ("Newspaper with ID " ++ show n ++ " not found"))
              else ret tt
          | None => ret tt
          end) ;;;
         article <- Prisma.article_update id updateArticleDto ;;
         ret (withAbsoluteUrls article req)
     end)
    (handlePrisma "Article with this slug already exists").

Definition remove (id : Z) (requestingUserId : Z) (requestingUserRole : string)
    : M string :=
  try_catch
    (found <- Prisma.article_findUnique id ;;
     match found with
     | None =>
         throw (Http (NotFoundException ("Article with ID " ++ show id ++ " not found")))
     | Some existingArticle =>
         throw_if (not_author_nor_privileged requestingUserRole existingArticle
                                             requestingUserId)
                  (BadRequestException "You can only delete your own articles") ;;;
         _ <- Prisma.article_delete id ;;
         ret "Article deleted successfully"
     end)
    (handlePrisma "Article already exists").

(** CreateArticleDto. *)
Record CreateArticleDto : Type := mkCreateArticleDto {
  dto_titleUz : string;
  dto_titleRu : option string;
  dto_contentUz : string;
  dto_contentRu : option string;
  dto_slug : string;
  dto_thumbnail : option string;
  dto_categoryId : Z;
  dto_authorId : Z;
  dto_isPublished : bool;
  dto_newspaperId : option Z
}.

(** [create]; [serial] is the id the new row draws (see
    [Prisma.article_create]). *)
Definition create (serial : Z) (createArticleDto : CreateArticleDto) (authorId : Z)
    (req : option Request) : M Article :=
  try_catch
    ((if negb (dto_categoryId createArticleDto =? 0) then
        category <- Prisma.category_findUnique (dto_categoryId createArticleDto) ;;
        throw_if (negb (is_some category))
                 (NotFoundException
                    ("Category with ID " ++ show (dto_categoryId createArticleDto)
                                         ++ " not found"))
      else ret tt) ;;;
     author <- Prisma.user_findUnique_id authorId ;;
     throw_if (negb (is_some author))
              (NotFoundException ("Author with ID " ++ show authorId ++ " not found")) ;;;
     (match dto_newspaperId createArticleDto with
      | Some n =>
          if negb (n =? 0) then
            newspaper <- Prisma.newspaper_findUnique n ;;
            throw_if (negb (is_some newspaper))
                     (NotFoundException ("Newspaper with ID " ++ show n ++ " not found"))
          else ret tt
      | None => ret tt
      end) ;;;
     article <- Prisma.article_create serial
                  (Prisma.mkArticleCreateInput
                     (dto_titleUz createArticleDto) (dto_titleRu createArticleDto)
                     (dto_contentUz createArticleDto) (dto_contentRu createArticleDto)
                     (dto_slug createArticleDto) (dto_thumbnail createArticleDto)
                     (dto_categoryId createArticleDto) authorId
                     (dto_isPublished createArticleDto)
                     (dto_newspaperId createArticleDto) 0) ;;
     ret (withAbsoluteUrls article req))
    (handlePrisma "Article with this slug already exists").

(** [findOne]: the row as it was read, then the view is counted. *)
Definition findOne (id : Z) (req : option Request) : M Article :=
  try_catch
    (found <- Prisma.article_findUnique id ;;
     match found with
     | None =>
         throw (Http (NotFoundException ("Article with ID " ++ show id ++ " not found")))
     | Some article =>
         _ <- Prisma.article_increment_viewCount (fun a => article_id a =? id) ;;
         ret (withAbsoluteUrls article req)
     end)
    (handlePrisma "Article already exists").

Definition findBySlug (slug : string) (req : option Request) : M Article :=
  try_catch
    (found <- Prisma.article_findUnique_slug slug ;;
     match found with
     | None =>
         throw (Http (NotFoundException ("Article with slug " ++ slug ++ " not found")))
     | Some article =>
         _ <- Prisma.article_increment_viewCount (Prisma.has_slug slug) ;;
         ret (withAbsoluteUrls article req)
     end)
    (handlePrisma "Article already exists").

End ArticleService.

(* ================================================================== *)
(** ** CommentService *)

Module CommentService.

(** UpdateCommentDto: the text of CreateCommentDto, optional. *)
Record UpdateCommentDto : Type := mkUpdateCommentDto {
  dto_text : option string
}.

(** [user.role !== name]. *)
Definition role_is_not (user : User) (name : string) : bool :=
  negb (String.eqb (role_name (user_role user)) name).

Definition update (id : Z) (userId : Z) (updateCommentDto : UpdateCommentDto)
    : M Comment :=
  try_catch
    (found <- Prisma.comment_findUnique id ;;
     match found with
     | None =>
         throw (Http (NotFoundException ("Comment with ID " ++ show id ++ " not found")))
     | Some comment =>
         (if negb (comment_userId comment =? userId) then
            found_user <- Prisma.user_findUnique_id userId ;;
            throw_if (match found_user with
                      | None => true
                      | Some user =>
                          role_is_not user "ADMIN" && role_is_not user "EDITOR"
                          && role_is_not user "SUPER_ADMIN"
                      end)
                     (ForbiddenException "You can only update your own comments")
          else ret tt) ;;;
         Prisma.comment_update id (dto_text updateCommentDto)
     end)
    (handlePrisma "Comment already exists").

Definition remove (id : Z) (userId : Z) (userRole : string) : M string :=
  try_catch
    (found <- Prisma.comment_findUnique id ;;
     match found with
     | None =>
         throw (Http (NotFoundException ("Comment with ID " ++ show id ++ " not found")))
     | Some comment =>
         if String.eqb userRole "SUPER_ADMIN" then
           _ <- Prisma.comment_delete id ;;
           ret "Comment deleted successfully"
         else
           (if negb (comment_userId comment =? userId) then
              found_user <- Prisma.user_findUnique_id userId ;;
              throw_if (match found_user with
                        | None => true
                        | Some user =>
                            role_is_not user "ADMIN" && role_is_not user "EDITOR"
                        end)
                       (ForbiddenException "You can only delete your own comments")
            else ret tt) ;;;
           _ <- Prisma.comment_delete id ;;
           ret "Comment deleted successfully"
     end)
    (handlePrisma "Comment already exists").

(** CreateCommentDto. *)
Record CreateCommentDto : Type := mkCreateCommentDto {
  new_text : string;
  new_articleId : Z
}.

(** [create]; [serial] is the id the new row draws (see
    [Prisma.comment_create]). *)
Definition create (serial : Z) (userId : Z) (createCommentDto : CreateCommentDto)
    : M Comment :=
  try_catch
    (user <- Prisma.user_findUnique_id userId ;;
     throw_if (negb (is_some user))
              (NotFoundException ("User with ID " ++ show userId ++ " not found")) ;;;
     article <- Prisma.article_findUnique_published (new_articleId createCommentDto) ;;
     throw_if (negb (is_some article))
              (NotFoundException
                 ("Article with ID " ++ show (new_articleId createCommentDto)
                                     ++ " not found or not published")) ;;;
     Prisma.comment_create serial (new_text createCommentDto) userId
                           (new_articleId createCommentDto))
    (handlePrisma "Comment already exists").

Definition findOne (id : Z) : M Comment :=
  try_catch
    (found <- Prisma.comment_findUnique id ;;
     match found with
     | None =>
         throw (Http (NotFoundException ("Comment with ID " ++ show id ++ " not found")))
     | Some comment => ret comment
     end)
    (handlePrisma "Comment already exists").

End CommentService.

(* ================================================================== *)
(** ** AuthService *)

(** The claims [AuthService] signs. *)
Record JwtPayload : Type := mkJwtPayload {
  sub : Z;
  email : string;
  role : Role
}.

(** [JwtService] of @nestjs/jwt as [AuthModule] configures it, at the
    clock reading of the request. *)
Class JwtService (Token : Type) : Type := {
  sign : JwtPayload -> Token
}.

Module AuthService.

(** RegisterDto. *)
Record RegisterDto : Type := mkRegisterDto {
  reg_email : string;
  reg_fullName : string;
  reg_password : string;
  reg_avatar : option string;
  reg_role : option Role
}.

(** LoginDto. *)
Record LoginDto : Type := mkLoginDto {
  login_email : string;
  login_password : string
}.

(** What [register] and [login] return. *)
Record Session (Token : Type) : Type := mkSession {
  user : UserView;
  access_token : Token
}.

Definition payload_of (user : User) : JwtPayload :=
  mkJwtPayload (user_id user) (user_email user) (user_role user).

Section Methods.

Context {Token : Type} {jwtService : JwtService Token} {crypto : Bcrypt}.

Definition register (registerDto : RegisterDto) : M (Session Token) :=
  existingUser <- Prisma.user_findUnique_email (reg_email registerDto) ;;
  throw_if (is_some existingUser)
           (ConflictException "User with this email already exists") ;;;
  throw_if (match reg_role registerDto with
            | Some r => Role_eqb r SUPER_ADMIN
            | None => false
            end)
           (ForbiddenException "Cannot register with SUPER_ADMIN role") ;;;
  let hashedPassword := hashPassword (reg_password registerDto) in
  user <- Prisma.user_create
            (Prisma.mkUserCreateInput (reg_email registerDto)
               (reg_fullName registerDto) hashedPassword (reg_avatar registerDto)
               (Some (match reg_role registerDto with
                      | Some r => r
                      | None => USER
                      end))) ;;
  let accessToken := sign (payload_of user) in
  ret (mkSession (select user) accessToken).

Definition comparePasswords (plainTextPassword hashedPassword : string) : bool :=
  bcrypt_compare plainTextPassword hashedPassword.

Definition login (loginDto : LoginDto) : M (Session Token) :=
  found <- Prisma.user_findUnique_email (login_email loginDto) ;;
  match found with
  | None => throw (Http (UnauthorizedException "Invalid credentials"))
  | Some user =>
      let isPasswordValid := comparePasswords (login_password loginDto)
                                              (user_password user) in
      throw_if (negb isPasswordValid)
               (UnauthorizedException "Invalid credentials") ;;;
      let accessToken := sign (payload_of user) in
      ret (mkSession (select user) accessToken)
  end.

End Methods.


(** [ensureSingleSuperAdmin]: at most one row holds SUPER_ADMIN. *)
Definition ensureSingleSuperAdmin : M bool :=
  superAdminCount <- Prisma.user_count_role SUPER_ADMIN ;;
  ret (superAdminCount <=? 1).

End AuthService.

(* ================================================================== *)
(** ** Token Service *)

Module TokenService.

(** [ConfigService]: the two variables [AuthModule] reads. *)
Record ConfigService : Type := mkConfigService {
  JWT_SECRET : option string;
  JWT_EXPIRES_IN : option string
}.

Record JwtModuleOptions : Type := mkJwtModuleOptions {
  secret : string;
  expiresIn : string
}.

(** [useFactory] of [JwtModule.registerAsync] in [AuthModule]. *)
Definition useFactory (configService : ConfigService) : JwtModuleOptions :=
  mkJwtModuleOptions (or_else (JWT_SECRET configService) "defaultSecretKey")
                     (or_else (JWT_EXPIRES_IN configService) "60m").

(** Modelled from the spec: the AuthToken of section 3,
    {subject-id, role, issued-at, expires-at, signature}; the claims are
    the payload [AuthService] signs. The file that decodes a presented
    token (auth/strategies/jwt.strategy) is not among the sources. *)
Record AuthToken : Type := mkAuthToken {
  claims : JwtPayload;
  issued_at : Z;
  expires_at : Z;
  signature : string
}.

(** Modelled from the spec: the identity claim (subject id, role) that
    [verify] decodes a token back into. *)
Record IdentityClaim : Type := mkIdentityClaim {
  claim_sub : Z;
  claim_role : Role
}.

(** Modelled from the spec: the two ways [verify] fails. *)
Inductive AuthError : Type :=
| InvalidToken
| ExpiredToken.

Section Signer.

(** The keyed signature over the claims and the two dates, and the number
    of seconds a time span such as "60m" stands for. *)
Variable mac : string -> JwtPayload -> Z -> Z -> string.
Variable seconds : string -> Z.
Variable options : JwtModuleOptions.

(** Modelled from the spec: [issue] signs the claim set with the
    server-held secret, with a fixed expiry offset from issuance time. *)
Definition issue (now : Z) (payload : JwtPayload) : AuthToken :=
  let exp := now + seconds (expiresIn options) in
  mkAuthToken payload now exp (mac (secret options) payload now exp).

(** Modelled from the spec: [verify] checks signature integrity and
    expiry; InvalidToken when the signature does not match, ExpiredToken
    when the current time exceeds the embedded expiry. *)
Definition verify (now : Z) (token : AuthToken) : AuthError + IdentityClaim :=
  if negb (String.eqb (signature token)
                      (mac (secret options) (claims token)
                           (issued_at token) (expires_at token)))
  then inl InvalidToken
  else if expires_at token <? now then inl ExpiredToken
  else inr (mkIdentityClaim (sub (claims token)) (role (claims token))).

(** The signer [AuthService] is given, at clock reading [now]. *)
Definition jwtService (now : Z) : JwtService AuthToken :=
  Build_JwtService (issue now).

End Signer.

End TokenService.

(* ================================================================== *)
(** ** Bootstrap: the two seeders *)

(** [process.env]: the two variables the seeders read. *)
Record Env : Type := mkEnv {
  SUPER_ADMIN_EMAIL : option string;
  SUPER_ADMIN_PASSWORD : option string
}.

Definition superAdminEmail (env : Env) : string :=
  or_else (SUPER_ADMIN_EMAIL env) "admin@sirdaryohaqqiqati.uz".

Definition superAdminPassword (env : Env) : string :=
  or_else (SUPER_ADMIN_PASSWORD env) "SuperAdmin123!".

Module PrismaService.

Section Methods.

Context {crypto : Bcrypt}.

(** [seedSuperAdmin]: keyed on the email. *)
Definition seedSuperAdmin (env : Env) : M unit :=
  let email := superAdminEmail env in
  adminExists <- Prisma.user_findUnique_email email ;;
  if negb (is_some adminExists) then
    let hashedPassword := bcrypt_hash (superAdminPassword env) 10 in
    _ <- Prisma.user_create
           (Prisma.mkUserCreateInput email "Super Admin" hashedPassword None
                                     (Some SUPER_ADMIN)) ;;
    ret tt
  else ret tt.

(** [onModuleInit]: [try { ...; await this.seedSuperAdmin() } catch (error)
    { console.error(...) }]: an error is reported and dropped. *)
Definition onModuleInit (env : Env) : M unit :=
  fun db =>
    match seedSuperAdmin env db with
    | (Return x, db') => (Return x, db')
    | (Throw _, db') => (Return tt, db')
    end.

End Methods.

End PrismaService.

Module SeedService.

Section Methods.

Context {crypto : Bcrypt}.

(** [ensureSuperAdminExists]: keyed on the role; its [catch] logs and
    throws the error again. *)
Definition ensureSuperAdminExists (env : Env) : M unit :=
  try_catch
    (superAdminUser <- Prisma.user_findFirst_role SUPER_ADMIN ;;
     if negb (is_some superAdminUser) then
       let hashedPassword := hashPassword (superAdminPassword env) in
       _ <- Prisma.user_create
              (Prisma.mkUserCreateInput (superAdminEmail env) "Super Admin"
                                        hashedPassword None (Some SUPER_ADMIN)) ;;
       ret tt
     else ret tt)
    (fun error => error).

Definition onModuleInit (env : Env) : M unit := ensureSuperAdminExists env.

End Methods.

End SeedService.

(* ================================================================== *)
(** ** Controllers *)

(** What [@GetUser()] hands a controller: the id and the role of the
    authenticated caller. *)
Record RequestUser : Type := mkRequestUser {
  caller_id : Z;
  caller_role : string
}.

Module CommentController.

Definition create (serial : Z) (createCommentDto : CommentService.CreateCommentDto)
    (user : RequestUser) : M Comment :=
  CommentService.create serial (caller_id user) createCommentDto.

Definition update (id : Z) (updateCommentDto : CommentService.UpdateCommentDto)
    (user : RequestUser) : M Comment :=
  CommentService.update id (caller_id user) updateCommentDto.

Definition remove (id : Z) (user : RequestUser) : M string :=
  CommentService.remove id (caller_id user) (caller_role user).

(** [removeOwn]: the service is given the role USER, whoever calls. *)
Definition removeOwn (id : Z) (user : RequestUser) : M string :=
  CommentService.remove id (caller_id user) "USER".

End CommentController.

Module ArticleController.

(** [create]: the author is the caller, in the DTO and beside it. *)
Definition create (serial : Z) (createArticleDto : ArticleService.CreateArticleDto)
    (user : RequestUser) (req : option Request) : M Article :=
  ArticleService.create serial
    (ArticleService.mkCreateArticleDto
       (ArticleService.dto_titleUz createArticleDto)
       (ArticleService.dto_titleRu createArticleDto)
       (ArticleService.dto_contentUz createArticleDto)
       (ArticleService.dto_contentRu createArticleDto)
       (ArticleService.dto_slug createArticleDto)
       (ArticleService.dto_thumbnail createArticleDto)
       (ArticleService.dto_categoryId createArticleDto)
       (caller_id user)
       (ArticleService.dto_isPublished createArticleDto)
       (ArticleService.dto_newspaperId createArticleDto))
    (caller_id user) req.

Definition update (id : Z) (updateArticleDto : ArticleService.UpdateArticleDto)
    (user : RequestUser) (req : option Request) : M Article :=
  ArticleService.update id updateArticleDto (caller_id user) (caller_role user) req.

Definition remove (id : Z) (user : RequestUser) : M string :=
  ArticleService.remove id (caller_id user) (caller_role user).

End ArticleController.

(* ================================================================== *)
(** ** The policy as the specification words it *)

Module Policy.

(** The hierarchy table of section 4.4 of the specification. *)
Definition hierarchy (actor : Role) : list Role :=
  match actor with
  | SUPER_ADMIN => [ADMIN; EDITOR; REPORTER; USER]
  | ADMIN => [EDITOR; REPORTER; USER]
  | EDITOR => [REPORTER; USER]
  | REPORTER => []
  | USER => []
  end.

Definition member (r : Role) (rs : list Role) : bool := existsb (Role_eqb r) rs.

(** [canChangeRole] of section 4.4: denies when the actor is not
    SUPER_ADMIN, when the existing role is SUPER_ADMIN, when the actor is
    the target, when the new role is SUPER_ADMIN. *)
Definition canChangeRole (actorRole existingTargetRole newTargetRole : Role)
    (isSelf : bool) : bool :=
  Role_eqb actorRole SUPER_ADMIN
  && negb (Role_eqb existingTargetRole SUPER_ADMIN)
  && negb isSelf
  && negb (Role_eqb newTargetRole SUPER_ADMIN).

(** [canDeleteIdentity] of section 4.4: denies when the target is
    SUPER_ADMIN or the actor is the target. *)
Definition canDeleteIdentity (targetRole : Role) (isSelf : bool) : bool :=
  negb (Role_eqb targetRole SUPER_ADMIN || isSelf).

(** [canMutate] of section 4.5: owner, or a privileged role. *)
Definition canMutate (actorId : Z) (actorRole : Role) (resourceOwnerId : Z)
    (privilegedRoles : list Role) : bool :=
  (actorId =? resourceOwnerId) || member actorRole privilegedRoles.

End Policy.

(* ================================================================== *)
(** ** Fixtures for the worked instances *)

Module Fixture.

(** A stand-in for bcrypt: tags the plain text. *)
Definition bcrypt : Bcrypt :=
  Build_Bcrypt (fun plain _ => "$2b$10$" ++ plain)
               (fun plain hashed => String.eqb ("$2b$10$" ++ plain) hashed)
               (fun plain => "$2b$10$" ++ plain).

(** A stand-in signer: the token is the payload. *)
Definition jwt : JwtService JwtPayload := Build_JwtService (fun p => p).

(** A stand-in keyed signature, and the reading of the one time span the
    worked instances use. *)
Definition mac (secret : string) (p : JwtPayload) (iat exp : Z) : string :=
  secret ++ "." ++ show (sub p) ++ "." ++ email p ++ "." ++ role_name (role p)
         ++ "." ++ show iat ++ "." ++ show exp.

Definition seconds (span : string) : Z :=
  if String.eqb span "60m" then 3600 else 0.

Definition root : User :=
  mkUser 1 "admin@sirdaryohaqqiqati.uz" "$2b$10$SuperAdmin123!" "Super Admin"
         None SUPER_ADMIN.

Definition alice : User := mkUser 2 "alice@example.com" "$2b$10$alice-pw" "Alice" None ADMIN.

Definition bob : User := mkUser 3 "bob@example.com" "$2b$10$bob-pw" "Bob" None REPORTER.

Definition carol : User := mkUser 4 "carol@example.com" "$2b$10$carol-pw" "Carol" None USER.

Definition story : Article :=
  mkArticle 1 "Yangi yangilik" None "Matn" None "yangi-yangilik" None 0 true 1 2 None.

Definition remark : Comment := mkComment 1 "This is a great article!" 4 1.

Definition db0 : Db :=
  mkDb [root; alice; bob; carol] [story] [remark] [1] [] 4.

End Fixture.

(* ================================================================== *)
(** ** Reading outcomes *)

(** The request was refused with 403 and this message. *)
Definition forbidden {A} (o : Outcome A) : Prop :=
  exists message, o = Throw (Http (ForbiddenException message)).

(** The row of the code's table for a role. *)
Definition row_of (actor : Role) : list string :=
  match UserService.roleHierarchy (role_name actor) with
  | Some row => row
  | None => []
  end.

(** An update that sets nothing. *)
Definition no_change : ArticleService.UpdateArticleDto :=
  Prisma.mkArticleUpdateInput None None None None None None None None None None.

(** The roles that may mutate what they do not own. *)
Definition privilegedRoles : list Role := [ADMIN; EDITOR; SUPER_ADMIN].

(** The store once the comment [id] is updated, and once it is deleted. *)
Definition comment_updated (id : Z) (new_text : option string) (db : Db) : Db :=
  set_comments
    (map (fun x => if comment_id x =? id
                   then Prisma.apply_comment_update new_text x else x)
         (comments db)) db.

Definition comment_deleted (id : Z) (db : Db) : Db :=
  set_comments (filter (fun x => negb (comment_id x =? id)) (comments db)) db.

(** What a permitted update and a permitted deletion of a comment give. *)
Definition comment_update_done (id : Z) (dto : CommentService.UpdateCommentDto)
    (comment : Comment) (db : Db) : Outcome Comment * Db :=
  (Return (Prisma.apply_comment_update (CommentService.dto_text dto) comment),
   comment_updated id (CommentService.dto_text dto) db).

Definition comment_delete_done (id : Z) (db : Db) : Outcome string * Db :=
  (Return "Comment deleted successfully", comment_deleted id db).

(** The store once the user [id] is deleted: the row goes, and the
    comments of that user with it. *)
Definition user_deleted (id : Z) (db : Db) : Db :=
  mkDb (filter (fun x => negb (Prisma.has_id id x)) (users db))
       (articles db)
       (filter (fun c => negb (comment_userId c =? id)) (comments db))
       (categories db) (newspapers db) (user_seq db).

(** The user [id] is the author of some article. *)
Definition has_articles (id : Z) (db : Db) : bool :=
  existsb (fun a => authorId a =? id) (articles db).

(** The row [register] inserts, and the store with it. *)
Definition registered {crypto : Bcrypt} (dto : AuthService.RegisterDto) (r : Role)
    (db : Db) : User :=
  mkUser (user_seq db + 1) (AuthService.reg_email dto)
         (hashPassword (AuthService.reg_password dto))
         (AuthService.reg_fullName dto) (AuthService.reg_avatar dto) r.

Definition user_added (u : User) (db : Db) : Db :=
  mkDb (users db ++ [u]) (articles db) (comments db) (categories db)
       (newspapers db) (user_id u).

(** The ids of the rows that hold SUPER_ADMIN. *)
Definition super_admins (db : Db) : list Z :=
  map user_id (filter (fun u => Role_eqb (user_role u) SUPER_ADMIN) (users db)).

(** The keys of "User" as the database keeps them: the primary key, the
    unique index on email, and a SERIAL counter ahead of every id. *)
Definition unique_ids (db : Db) : Prop := NoDup (map user_id (users db)).

Definition unique_emails (db : Db) : Prop := NoDup (map user_email (users db)).

Definition seq_ahead (db : Db) : Prop :=
  Forall (fun u => user_id u <= user_seq db) (users db).

Definition sound (db : Db) : Prop := unique_ids db /\ unique_emails db /\ seq_ahead db.

(** The privilege order of the roles. *)
Definition rank (r : Role) : Z :=
  match r with
  | SUPER_ADMIN => 4
  | ADMIN => 3
  | EDITOR => 2
  | REPORTER => 1
  | USER => 0
  end.

(** The store once the article [id] is deleted: the row goes, and the
    comments on it with it. *)
Definition article_deleted (id : Z) (db : Db) : Db :=
  mkDb (users db)
       (filter (fun x => negb (article_id x =? id)) (articles db))
       (filter (fun c => negb (comment_articleId c =? id)) (comments db))
       (categories db) (newspapers db) (user_seq db).

(** The store once a view of the rows that [selected] picks is counted. *)
Definition view_counted (selected : Article -> bool) (db : Db) : Db :=
  set_articles
    (map (fun x => if selected x then Prisma.with_viewCount (viewCount x + 1) x else x)
         (articles db)) db.

(** The outcome is a Prisma error. *)
Definition is_prisma_error {A} (o : Outcome A) : bool :=
  match o with
  | Throw (PrismaClientKnownRequestError _) => true
  | _ => false
  end.

(** The [data] that [UserService.update] hands to [user.update]: the DTO
    with a non-empty password hashed and a non-empty avatar made absolute. *)
Definition updatedData {crypto : Bcrypt} (dto : UserService.UpdateUserDto)
    (req : option Request) : Prisma.UserUpdateInput :=
  Prisma.mkUserUpdateInput
    (UserService.upd_email dto) (UserService.upd_fullName dto)
    (if truthy_string (UserService.upd_password dto)
     then option_map (fun p => bcrypt_hash p 10) (UserService.upd_password dto)
     else UserService.upd_password dto)
    (if truthy_string (UserService.upd_avatar dto)
     then option_map (fun a => constructAbsoluteUrl a req) (UserService.upd_avatar dto)
     else UserService.upd_avatar dto)
    (UserService.upd_role dto).

(** The store once the user [id] is updated with [data]. *)
Definition user_updated (id : Z) (data : Prisma.UserUpdateInput) (db : Db) : Db :=
  set_users
    (map (fun x => if Prisma.has_id id x then Prisma.apply_user_update data x else x)
         (users db)) db.

(** The role check of [UserService.update]: run only for a role that is
    present and differs from the stored one. *)
Definition role_check (R : string) (dto : UserService.UpdateUserDto) (u : User)
    (id requestingUserId : Z) : Outcome unit :=
  match UserService.upd_role dto with
  | Some r =>
      if negb (String.eqb (role_name r) (role_name (user_role u)))
      then UserService.validateRoleUpdate R (role_name (user_role u)) (role_name r)
                                          id requestingUserId
      else Return tt
  | None => Return tt
  end.

(** The row [UserService.create] inserts. *)
Definition created {crypto : Bcrypt} (dto : UserService.CreateUserDto) (db : Db) : User :=
  mkUser (user_seq db + 1) (UserService.dto_email dto)
         (bcrypt_hash (UserService.dto_password dto) 10)
         (UserService.dto_fullName dto) (UserService.dto_avatar dto)
         (UserService.dto_role dto).

(** The store once an INSERT into "User" was refused: the counter moved. *)
Definition seq_consumed (db : Db) : Db :=
  mkDb (users db) (articles db) (comments db) (categories db) (newspapers db)
       (user_seq db + 1).

(** The role a registration asks for: USER when none is given. *)
Definition asked_role (dto : AuthService.RegisterDto) : Role :=
  match AuthService.reg_role dto with
  | Some r => r
  | None => USER
  end.



(** The row [CommentService.create] inserts, and the store with it. *)
Definition posted (serial userId : Z) (dto : CommentService.CreateCommentDto) : Comment :=
  mkComment serial (CommentService.new_text dto) userId (CommentService.new_articleId dto).

Definition comment_added (c : Comment) (db : Db) : Db :=
  set_comments (comments db ++ [c]) db.

(** The published article with this id. *)
Definition published_article (id : Z) (db : Db) : option Article :=
  find (fun a => (article_id a =? id) && isPublished a) (articles db).

(** The row each seeder inserts. *)
Definition seeded_by_role {crypto : Bcrypt} (env : Env) (db : Db) : User :=
  mkUser (user_seq db + 1) (superAdminEmail env)
         (hashPassword (superAdminPassword env)) "Super Admin" None SUPER_ADMIN.

Definition seeded_by_email {crypto : Bcrypt} (env : Env) (db : Db) : User :=
  mkUser (user_seq db + 1) (superAdminEmail env)
         (bcrypt_hash (superAdminPassword env) 10) "Super Admin" None SUPER_ADMIN.

Definition holds_super_admin (u : User) : bool := Role_eqb (user_role u) SUPER_ADMIN.

(* ================================================================== *)
(** ** Basic facts *)

(** Unfolds the monad of a request. *)
Ltac run :=
  unfold try_catch, bind, ret, throw, throw_if, lift, get, put in *; cbn beta iota in *.

Lemma role_name_inj (a b : Role) : role_name a = role_name b -> a = b.
Proof. destruct a, b; simpl; intro H; try reflexivity; discriminate H. Qed.

Lemma role_name_eqb (a b : Role) :
  String.eqb (role_name a) (role_name b) = Role_eqb a b.
Proof. destruct a, b; reflexivity. Qed.

Lemma Role_eqb_eq (a b : Role) : Role_eqb a b = true <-> a = b.
Proof. destruct a, b; simpl; split; intro H; try reflexivity; discriminate H. Qed.

Lemma Role_eqb_neq (a b : Role) : Role_eqb a b = false <-> a <> b.
Proof.
  split.
  - intros H E. apply Role_eqb_eq in E. congruence.
  - intro H. destruct (Role_eqb a b) eqn:E; [apply Role_eqb_eq in E; contradiction | reflexivity].
Qed.

Lemma is_super_admin (r : Role) :
  String.eqb (role_name r) "SUPER_ADMIN" = Role_eqb r SUPER_ADMIN.
Proof. destruct r; reflexivity. Qed.

(* ================================================================== *)
(** ** The embedding at work *)

Example admin_may_create_editor :
  UserService.validateRoleCreation "ADMIN" "EDITOR" = Return tt.
Proof. reflexivity. Qed.

Example editor_may_not_create_admin :
  UserService.validateRoleCreation "EDITOR" "ADMIN"
  = Throw (Http (ForbiddenException
       "Insufficient permissions to create user with role: ADMIN. Your role: EDITOR")).
Proof. reflexivity. Qed.

Example no_requesting_role_passes :
  UserService.validateRoleCreation "" "ADMIN" = Return tt.
Proof. reflexivity. Qed.

Example unknown_requesting_role_is_refused :
  UserService.validateRoleCreation "MODERATOR" "USER"
  = Throw (Http (ForbiddenException
       "Insufficient permissions to create user with role: USER. Your role: MODERATOR")).
Proof. reflexivity. Qed.

Example inherited_property_is_no_row :
  UserService.validateRoleCreation "constructor" "USER"
  = Throw (TypeError "roleHierarchy[requestingUserRole]?.includes is not a function").
Proof. reflexivity. Qed.

Example missing_user_is_not_found :
  UserService.remove 42 1 "SUPER_ADMIN" Fixture.db0
  = (Throw (Http (NotFoundException "User with ID 42 not found")), Fixture.db0).
Proof. reflexivity. Qed.

Example author_is_kept_by_the_foreign_key :
  UserService.remove 2 1 "SUPER_ADMIN" Fixture.db0
  = (Throw (Http (BadRequestException
       "Foreign key constraint failed: Article_authorId_fkey (index)")), Fixture.db0).
Proof. reflexivity. Qed.

Example duplicate_email_is_a_conflict :
  @UserService.create Fixture.bcrypt
    (UserService.mkCreateUserDto "bob@example.com" "Bob Two" "bob-two-pw" None USER)
    (Some 2) (Some "ADMIN") Fixture.db0
  = (Throw (Http (ConflictException "User already exists: email")),
     mkDb (users Fixture.db0) (articles Fixture.db0) (comments Fixture.db0)
          (categories Fixture.db0) (newspapers Fixture.db0) 5).
Proof. reflexivity. Qed.

Example editor_updates_any_article :
  fst (ArticleService.update 1
         (Prisma.mkArticleUpdateInput (Some "Sarlavha") None None None None
                                      (Some "/uploads/a.png") None None None None)
         9 "EDITOR" None Fixture.db0)
  = Return (mkArticle 1 "Sarlavha" None "Matn" None "yangi-yangilik"
                      (Some "http://localhost:3000/uploads/a.png") 0 true 1 2 None).
Proof. reflexivity. Qed.

(* ================================================================== *)
(** ** The role hierarchy: assigning roles *)

Import UserService.

(** C1. Nobody can assign SUPER_ADMIN. [validateRoleCreation] refuses the
    target SUPER_ADMIN for every requesting role and whatever the hierarchy
    table holds, and [validateRoleUpdate] refuses it for every requesting
    role, stored role and pair of ids; so [create] with that role, and
    [update] of a user who is not SUPER_ADMIN to that role, throw
    ForbiddenException and leave the store as it was. *)
Theorem super_admin_is_never_assignable :
  (forall (table : string -> option (list string)) (R : string),
      validateRoleCreationWith table R "SUPER_ADMIN"
      = Throw (Http (ForbiddenException
                       "SUPER_ADMIN cannot be created through regular user creation")))
  /\ (forall (R existing : string) (targetUserId requestingUserId : Z),
         validateRoleUpdate R existing "SUPER_ADMIN" targetUserId requestingUserId
         = Throw (Http (ForbiddenException "Cannot update user to SUPER_ADMIN role")))
  /\ (forall (crypto : Bcrypt) (e f p : string) (a : option string)
             (requestingUserId : option Z) (R : option string) (db : Db),
         create (mkCreateUserDto e f p a SUPER_ADMIN) requestingUserId R db
         = (Throw (Http (ForbiddenException
                           "SUPER_ADMIN cannot be created through regular user creation")),
            db))
  /\ (forall (crypto : Bcrypt) (id requestingUserId : Z) (R : string)
             (req : option Request) (db : Db) (u : User)
             (e f p a : option string),
         find (Prisma.has_id id) (users db) = Some u ->
         user_role u <> SUPER_ADMIN ->
         update id (mkUpdateUserDto e f p a (Some SUPER_ADMIN)) requestingUserId R req db
         = (Throw (Http (ForbiddenException "Cannot update user to SUPER_ADMIN role")), db)).
Proof.
  split; [| split; [| split]].
  - intros table R. reflexivity.
  - intros. reflexivity.
  - intros. reflexivity.
  - intros crypto id rid R req db u e f p a Hfind Hrole.
    unfold update, Prisma.user_findUnique_id. run. rewrite Hfind.
    destruct (user_role u); [congruence | reflexivity ..].
Qed.

(** C1, worked: ADMIN alice (id 2) tries to make REPORTER bob (id 3) a
    SUPER_ADMIN. *)
Lemma super_admin_is_never_assignable_witness :
  find (Prisma.has_id 3) (users Fixture.db0) = Some Fixture.bob
  /\ user_role Fixture.bob <> SUPER_ADMIN
  /\ @update Fixture.bcrypt 3 (mkUpdateUserDto None None None None (Some SUPER_ADMIN))
             2 "ADMIN" None Fixture.db0
     = (Throw (Http (ForbiddenException "Cannot update user to SUPER_ADMIN role")),
        Fixture.db0).
Proof.
  split; [reflexivity | split; [discriminate |]].
  apply (proj2 (proj2 (proj2 super_admin_is_never_assignable))
           Fixture.bcrypt 3 2 "ADMIN" None Fixture.db0 Fixture.bob).
  - reflexivity.
  - discriminate.
Defined.

(** C2, as stated, fails: USER is not in the row the specification gives
    REPORTER, yet [validateRoleCreation] lets a REPORTER create a USER, and
    [create] persists the row. *)
Lemma reporter_may_create_user :
  Policy.member USER (Policy.hierarchy REPORTER) = false
  /\ validateRoleCreation "REPORTER" "USER" = Return tt
  /\ @create Fixture.bcrypt
             (mkCreateUserDto "dave@example.com" "Dave" "dave-pw" None USER)
             (Some 3) (Some "REPORTER") Fixture.db0
     = (Return (mkUserView 5 "dave@example.com" "Dave" USER None),
        mkDb [Fixture.root; Fixture.alice; Fixture.bob; Fixture.carol;
              mkUser 5 "dave@example.com" "$2b$10$dave-pw" "Dave" None USER]
             [Fixture.story] [Fixture.remark] [1] [] 5).
Proof. repeat split. Qed.

(** C2, amended. Creation is default-deny over the table the code holds,
    whose rows are SUPER_ADMIN: ADMIN, EDITOR, REPORTER, USER; ADMIN:
    EDITOR, REPORTER, USER; EDITOR: REPORTER, USER; REPORTER: USER; USER:
    none. For an actor holding one of the five roles, [validateRoleCreation]
    passes exactly the targets of the actor's row, and [create] with any
    other target throws ForbiddenException and leaves the store as it was;
    so a USER can create nobody and a REPORTER only a USER. *)
Theorem creation_is_default_deny_over_the_code_table :
  (row_of SUPER_ADMIN = ["ADMIN"; "EDITOR"; "REPORTER"; "USER"]
   /\ row_of ADMIN = ["EDITOR"; "REPORTER"; "USER"]
   /\ row_of EDITOR = ["REPORTER"; "USER"]
   /\ row_of REPORTER = ["USER"]
   /\ row_of USER = [])
  /\ (forall actor target : Role,
         validateRoleCreation (role_name actor) (role_name target) = Return tt
         <-> includes (row_of actor) (role_name target) = true)
  /\ (forall (crypto : Bcrypt) (actor target : Role) (e f p : string)
             (a : option string) (requestingUserId : option Z) (db : Db),
         includes (row_of actor) (role_name target) = false ->
         forbidden (fst (create (mkCreateUserDto e f p a target) requestingUserId
                                (Some (role_name actor)) db))
         /\ snd (create (mkCreateUserDto e f p a target) requestingUserId
                        (Some (role_name actor)) db) = db).
Proof.
  split; [repeat split | split].
  - intros actor target.
    destruct actor, target; cbv; split; intro H; try reflexivity; discriminate H.
  - intros crypto actor target e f p a rid db H.
    destruct actor, target; try discriminate H; (split; [eexists |]; reflexivity).
Qed.

(** C2, worked: REPORTER bob tries to create an EDITOR. *)
Lemma creation_is_default_deny_over_the_code_table_witness :
  includes (row_of REPORTER) (role_name EDITOR) = false
  /\ forbidden (fst (@create Fixture.bcrypt
                       (mkCreateUserDto "eve@example.com" "Eve" "eve-pw" None EDITOR)
                       (Some 3) (Some (role_name REPORTER)) Fixture.db0))
  /\ snd (@create Fixture.bcrypt
            (mkCreateUserDto "eve@example.com" "Eve" "eve-pw" None EDITOR)
            (Some 3) (Some (role_name REPORTER)) Fixture.db0) = Fixture.db0.
Proof.
  split; [reflexivity |].
  apply (proj2 (proj2 creation_is_default_deny_over_the_code_table)
           Fixture.bcrypt REPORTER EDITOR).
  reflexivity.
Defined.

(* ================================================================== *)
(** ** Inverting a request that returned *)

Lemma bind_returns {A B} (m : M A) (k : A -> M B) (db db' : Db) (b : B) :
  bind m k db = (Return b, db') ->
  exists a db1, m db = (Return a, db1) /\ k a db1 = (Return b, db').
Proof.
  unfold bind. destruct (m db) as [[a | e] db1]; intro H.
  - exists a, db1. split; [reflexivity | exact H].
  - discriminate H.
Qed.

Lemma try_catch_returns {A} (body : M A) (h : Exn -> Exn) (db db' : Db) (a : A) :
  try_catch body h db = (Return a, db') -> body db = (Return a, db').
Proof.
  unfold try_catch. destruct (body db) as [[x | e] db1]; intro H.
  - exact H.
  - discriminate H.
Qed.

Lemma lift_returns {A} (o : Outcome A) (db db' : Db) (a : A) :
  lift o db = (Return a, db') -> o = Return a /\ db' = db.
Proof. unfold lift. intro H. split; congruence. Qed.

Lemma user_findUnique_id_runs (id : Z) (db : Db) :
  Prisma.user_findUnique_id id db = (Return (find (Prisma.has_id id) (users db)), db).
Proof. reflexivity. Qed.

(* ================================================================== *)
(** ** The role hierarchy: changing roles *)

Lemma validateRoleUpdate_passes (a e n : string) (tid rid : Z) :
  validateRoleUpdate a e n tid rid = Return tt
  <-> (a = "SUPER_ADMIN" /\ e <> "SUPER_ADMIN" /\ n <> "SUPER_ADMIN" /\ tid <> rid).
Proof.
  unfold validateRoleUpdate.
  destruct (String.eqb_spec n "SUPER_ADMIN") as [Hn | Hn];
    [split; [discriminate | tauto] |].
  destruct (String.eqb_spec a "SUPER_ADMIN") as [Ha | Ha]; simpl;
    [| split; [discriminate | tauto]].
  destruct (String.eqb_spec e "SUPER_ADMIN") as [He | He];
    [split; [discriminate | tauto] |].
  destruct (Z.eqb_spec tid rid) as [Hi | Hi];
    [split; [discriminate | tauto] |].
  tauto.
Qed.

Lemma validateRoleUpdate_refuses (a e n : string) (tid rid : Z) :
  validateRoleUpdate a e n tid rid = Return tt
  \/ forbidden (validateRoleUpdate a e n tid rid).
Proof.
  unfold validateRoleUpdate, forbidden.
  destruct (String.eqb n "SUPER_ADMIN"); [right; eexists; reflexivity |].
  destruct (String.eqb a "SUPER_ADMIN"); simpl; [| right; eexists; reflexivity].
  destruct (String.eqb e "SUPER_ADMIN"); [right; eexists; reflexivity |].
  destruct (tid =? rid); [right; eexists; reflexivity | left; reflexivity].
Qed.

Lemma find_updated (id : Z) (f : User -> User) (l : list User) :
  (forall x, user_id (f x) = user_id x) ->
  find (Prisma.has_id id) (map (fun x => if Prisma.has_id id x then f x else x) l)
  = option_map f (find (Prisma.has_id id) l).
Proof.
  intro Hid. induction l as [| x xs IH]; simpl; [reflexivity |].
  destruct (Prisma.has_id id x) eqn:E.
  - unfold Prisma.has_id in *. rewrite Hid, E. reflexivity.
  - rewrite E. exact IH.
Qed.

(** An [update] that passes the four conditions and meets no unique-index
    conflict stores the new role. *)
Lemma update_changes_role (crypto : Bcrypt) (id requestingUserId : Z)
    (dto : UpdateUserDto) (req : option Request) (db : Db) (u : User) (new : Role) :
  find (Prisma.has_id id) (users db) = Some u ->
  upd_role dto = Some new ->
  user_role u <> SUPER_ADMIN -> new <> SUPER_ADMIN -> id <> requestingUserId ->
  Prisma.email_taken_by_other id (upd_email dto) (users db) = false ->
  exists (v : UserView) (db' : Db),
    update id dto requestingUserId "SUPER_ADMIN" req db = (Return v, db')
    /\ view_role v = new
    /\ option_map user_role (find (Prisma.has_id id) (users db')) = Some new.
Proof.
  intros Hfind Hnew Hu Hn Hid Hemail.
  assert (Hcheck : validateRoleUpdate "SUPER_ADMIN" (role_name (user_role u))
                     (role_name new) id requestingUserId = Return tt).
  { apply validateRoleUpdate_passes. repeat split; try assumption.
    - intro E. apply Hu. apply role_name_inj. exact E.
    - intro E. apply Hn. apply role_name_inj. exact E. }
  unfold update, try_catch, bind.
  rewrite user_findUnique_id_runs, Hfind, is_super_admin.
  apply Role_eqb_neq in Hu. rewrite Hu. cbn [andb throw_if ret].
  rewrite Hnew, Hcheck.
  apply Z.eqb_neq in Hid. rewrite Hid.
  assert (Hstep : (if negb (String.eqb (role_name new) (role_name (user_role u)))
                   then lift (Return tt) else ret tt) db = (Return tt, db))
    by (destruct (negb _); reflexivity).
  rewrite Hstep. cbn [andb throw_if ret].
  unfold Prisma.user_update, bind, get, put, ret. rewrite Hfind.
  cbn [Prisma.update_email]. rewrite Hemail.
  eexists. eexists. split; [reflexivity |]. split; [reflexivity |].
  simpl. rewrite find_updated by reflexivity. rewrite Hfind. reflexivity.
Qed.

(** C3. A role change passes only for a SUPER_ADMIN acting on somebody
    else whose role is not SUPER_ADMIN, towards a role that is not
    SUPER_ADMIN: [validateRoleUpdate] returns exactly then (and throws
    ForbiddenException otherwise), which is what [canChangeRole] of the
    specification says; an [update] that changes a role returns only
    under those four conditions, and under them it stores the new role. *)
Theorem role_change_needs_super_admin :
  (forall (a e n : string) (tid rid : Z),
      (validateRoleUpdate a e n tid rid = Return tt
       <-> (a = "SUPER_ADMIN" /\ e <> "SUPER_ADMIN" /\ n <> "SUPER_ADMIN" /\ tid <> rid))
      /\ (validateRoleUpdate a e n tid rid = Return tt
          \/ forbidden (validateRoleUpdate a e n tid rid)))
  /\ (forall (actor existing new : Role) (tid rid : Z),
         validateRoleUpdate (role_name actor) (role_name existing) (role_name new) tid rid
         = Return tt
         <-> Policy.canChangeRole actor existing new (tid =? rid) = true)
  /\ (Policy.canChangeRole SUPER_ADMIN ADMIN EDITOR false = true
      /\ Policy.canChangeRole SUPER_ADMIN SUPER_ADMIN ADMIN false = false
      /\ Policy.canChangeRole ADMIN EDITOR USER false = false)
  /\ (forall (crypto : Bcrypt) (id requestingUserId : Z) (R : string)
             (dto : UpdateUserDto) (req : option Request) (db db' : Db)
             (u : User) (new : Role) (v : UserView),
         find (Prisma.has_id id) (users db) = Some u ->
         upd_role dto = Some new ->
         new <> user_role u ->
         update id dto requestingUserId R req db = (Return v, db') ->
         R = "SUPER_ADMIN" /\ user_role u <> SUPER_ADMIN /\ new <> SUPER_ADMIN
         /\ id <> requestingUserId)
  /\ (forall (crypto : Bcrypt) (id requestingUserId : Z) (dto : UpdateUserDto)
             (req : option Request) (db : Db) (u : User) (new : Role),
         find (Prisma.has_id id) (users db) = Some u ->
         upd_role dto = Some new ->
         user_role u <> SUPER_ADMIN -> new <> SUPER_ADMIN -> id <> requestingUserId ->
         Prisma.email_taken_by_other id (upd_email dto) (users db) = false ->
         exists (v : UserView) (db' : Db),
           update id dto requestingUserId "SUPER_ADMIN" req db = (Return v, db')
           /\ view_role v = new
           /\ option_map user_role (find (Prisma.has_id id) (users db')) = Some new).
Proof.
  split; [| split; [| split; [| split]]]; [| | | | exact update_changes_role].
  - intros. split; [apply validateRoleUpdate_passes | apply validateRoleUpdate_refuses].
  - intros actor existing new tid rid.
    rewrite validateRoleUpdate_passes. unfold Policy.canChangeRole.
    destruct (Z.eqb_spec tid rid) as [Hi | Hi];
      destruct actor, existing, new; simpl; split; intro H;
      try discriminate H; try reflexivity;
      try (destruct H as (H1 & H2 & H3 & H4); congruence);
      repeat split; try discriminate; assumption.
  - repeat split.
  - intros crypto id rid R dto req db db' u new v Hfind Hnew Hchg Hrun.
    unfold update in Hrun.
    apply try_catch_returns in Hrun.
    apply bind_returns in Hrun. destruct Hrun as (found & db1 & Hf & Hrun).
    rewrite user_findUnique_id_runs in Hf. injection Hf as <- <-.
    rewrite Hfind in Hrun.
    apply bind_returns in Hrun. destruct Hrun as (x1 & db2 & _ & Hrun).
    apply bind_returns in Hrun. destruct Hrun as (x2 & db3 & Hcheck & _).
    rewrite Hnew in Hcheck. rewrite role_name_eqb in Hcheck.
    assert (Hne : Role_eqb new (user_role u) = false) by (apply Role_eqb_neq; exact Hchg).
    rewrite Hne in Hcheck. simpl in Hcheck.
    apply lift_returns in Hcheck. destruct Hcheck as [Hcheck _].
    destruct x2. apply validateRoleUpdate_passes in Hcheck.
    destruct Hcheck as (HR & He & Hn & Hid).
    repeat split; try assumption.
    + intro E. apply He. rewrite E. reflexivity.
    + intro E. apply Hn. rewrite E. reflexivity.
Qed.

(** C3, worked: SUPER_ADMIN root (id 1) makes ADMIN alice (id 2) an
    EDITOR. *)
Lemma role_change_needs_super_admin_witness :
  find (Prisma.has_id 2) (users Fixture.db0) = Some Fixture.alice
  /\ EDITOR <> user_role Fixture.alice
  /\ @update Fixture.bcrypt 2 (mkUpdateUserDto None None None None (Some EDITOR))
             1 "SUPER_ADMIN" None Fixture.db0
     = (Return (mkUserView 2 "alice@example.com" "Alice" EDITOR None),
        set_users [Fixture.root;
                   mkUser 2 "alice@example.com" "$2b$10$alice-pw" "Alice" None EDITOR;
                   Fixture.bob; Fixture.carol] Fixture.db0)
  /\ ("SUPER_ADMIN" = "SUPER_ADMIN" /\ user_role Fixture.alice <> SUPER_ADMIN
      /\ EDITOR <> SUPER_ADMIN /\ 2 <> 1).
Proof.
  split; [reflexivity | split; [discriminate | split; [reflexivity |]]].
  apply (proj1 (proj2 (proj2 (proj2 role_change_needs_super_admin)))
           Fixture.bcrypt 2 1 "SUPER_ADMIN"
           (mkUpdateUserDto None None None None (Some EDITOR)) None
           Fixture.db0
           (set_users [Fixture.root;
                       mkUser 2 "alice@example.com" "$2b$10$alice-pw" "Alice" None EDITOR;
                       Fixture.bob; Fixture.carol] Fixture.db0)
           Fixture.alice EDITOR
           (mkUserView 2 "alice@example.com" "Alice" EDITOR None));
    [reflexivity | reflexivity | discriminate | reflexivity].
Defined.

(* ================================================================== *)
(** ** Articles: ownership or privileged role *)

Lemma article_findUnique_runs (id : Z) (db : Db) :
  Prisma.article_findUnique id db
  = (Return (find (fun a => article_id a =? id) (articles db)), db).
Proof. reflexivity. Qed.

(** The guard of [ArticleService]: an actor who is neither the author nor
    SUPER_ADMIN, ADMIN or EDITOR is refused, by [update] and by [remove],
    with BadRequestException, and the store is as it was. *)
Lemma article_guard_refuses (id requestingUserId : Z) (R : string)
    (dto : ArticleService.UpdateArticleDto) (req : option Request) (db : Db)
    (a : Article) :
  find (fun x => article_id x =? id) (articles db) = Some a ->
  authorId a <> requestingUserId ->
  R <> "SUPER_ADMIN" -> R <> "ADMIN" -> R <> "EDITOR" ->
  ArticleService.update id dto requestingUserId R req db
  = (Throw (Http (BadRequestException "You can only update your own articles")), db)
  /\ ArticleService.remove id requestingUserId R db
     = (Throw (Http (BadRequestException "You can only delete your own articles")), db).
Proof.
  intros Hfind Hauthor H1 H2 H3.
  assert (Hguard : ArticleService.not_author_nor_privileged R a requestingUserId = true).
  { unfold ArticleService.not_author_nor_privileged.
    apply String.eqb_neq in H1, H2, H3. rewrite H1, H2, H3.
    apply Z.eqb_neq in Hauthor. rewrite Hauthor. reflexivity. }
  unfold ArticleService.update, ArticleService.remove, try_catch, bind.
  rewrite article_findUnique_runs, Hfind.
  unfold throw_if. rewrite Hguard. split; reflexivity.
Qed.

(** C4. What the code does for REPORTER bob (id 3) on the article of
    alice (id 2): [update] and [remove] refuse and leave the store as it
    was, but with BadRequestException, status 400, not ForbiddenException,
    status 403. *)
Theorem article_denial_is_a_bad_request :
  ArticleService.update 1 no_change 3 "REPORTER" None Fixture.db0
  = (Throw (Http (BadRequestException "You can only update your own articles")),
     Fixture.db0)
  /\ ArticleService.remove 1 3 "REPORTER" Fixture.db0
     = (Throw (Http (BadRequestException "You can only delete your own articles")),
        Fixture.db0)
  /\ getStatus (BadRequestException "You can only update your own articles") = 400
  /\ getStatus (BadRequestException "You can only delete your own articles") = 400
  /\ ~ forbidden (fst (ArticleService.update 1 no_change 3 "REPORTER" None Fixture.db0))
  /\ ~ forbidden (fst (ArticleService.remove 1 3 "REPORTER" Fixture.db0)).
Proof.
  destruct (@article_guard_refuses 1 3 "REPORTER" no_change None Fixture.db0 Fixture.story)
    as [Hu Hr]; try reflexivity; try discriminate.
  rewrite Hu, Hr. repeat split; intros [m Hm]; discriminate Hm.
Qed.

(* ================================================================== *)
(** ** Comments: ownership or privileged role *)

Lemma comment_findUnique_runs (id : Z) (db : Db) :
  Prisma.comment_findUnique id db
  = (Return (find (fun c => comment_id c =? id) (comments db)), db).
Proof. reflexivity. Qed.

Lemma comment_update_runs (id : Z) (new_text : option string) (db : Db) (c : Comment) :
  find (fun x => comment_id x =? id) (comments db) = Some c ->
  Prisma.comment_update id new_text db
  = (Return (Prisma.apply_comment_update new_text c), comment_updated id new_text db).
Proof.
  intro H. unfold Prisma.comment_update, bind, get, put, ret. rewrite H. reflexivity.
Qed.

Lemma comment_delete_runs (id : Z) (db : Db) (c : Comment) :
  find (fun x => comment_id x =? id) (comments db) = Some c ->
  Prisma.comment_delete id db = (Return c, comment_deleted id db).
Proof.
  intro H. unfold Prisma.comment_delete, bind, get, put, ret. rewrite H. reflexivity.
Qed.

(** Once deleted, the comment is not found. *)
Lemma comment_deleted_is_gone (id : Z) (db : Db) :
  find (fun x => comment_id x =? id) (comments (comment_deleted id db)) = None.
Proof.
  unfold comment_deleted. simpl. induction (comments db) as [| x xs IH]; simpl.
  - reflexivity.
  - destruct (comment_id x =? id) eqn:E; simpl; [exact IH | rewrite E; exact IH].
Qed.

Section CommentMutation.

Variables (id userId : Z) (db : Db) (comment : Comment).
Variable dto : CommentService.UpdateCommentDto.
Hypothesis found : find (fun c => comment_id c =? id) (comments db) = Some comment.

Lemma owner_updates :
  comment_userId comment = userId -> CommentService.update id userId dto db = comment_update_done id dto comment db.
Proof.
  intro Hown. unfold CommentService.update, try_catch, bind.
  rewrite comment_findUnique_runs, found.
  apply Z.eqb_eq in Hown. rewrite Hown. simpl.
  rewrite (@comment_update_runs _ _ _ _ found). reflexivity.
Qed.

Lemma owner_deletes (userRole : string) :
  comment_userId comment = userId -> CommentService.remove id userId userRole db = comment_delete_done id db.
Proof.
  intro Hown. unfold CommentService.remove, try_catch, bind.
  rewrite comment_findUnique_runs, found.
  apply Z.eqb_eq in Hown. rewrite Hown.
  destruct (String.eqb userRole "SUPER_ADMIN"); simpl;
    rewrite (@comment_delete_runs _ _ _ found); reflexivity.
Qed.

Lemma super_admin_deletes : CommentService.remove id userId "SUPER_ADMIN" db = comment_delete_done id db.
Proof.
  unfold CommentService.remove, try_catch, bind.
  rewrite comment_findUnique_runs, found. simpl.
  rewrite (@comment_delete_runs _ _ _ found). reflexivity.
Qed.

Lemma other_updates (actor : User) :
  comment_userId comment <> userId ->
  find (Prisma.has_id userId) (users db) = Some actor ->
  CommentService.update id userId dto db
  = if Policy.member (user_role actor) privilegedRoles then comment_update_done id dto comment db
    else (Throw (Http (ForbiddenException "You can only update your own comments")), db).
Proof.
  intros Hother Hactor. unfold CommentService.update, try_catch, bind.
  rewrite comment_findUnique_runs, found.
  apply Z.eqb_neq in Hother. rewrite Hother. cbn [negb].
  unfold bind. rewrite user_findUnique_id_runs, Hactor.
  unfold CommentService.role_is_not.
  destruct (user_role actor); simpl;
    try rewrite (@comment_update_runs _ _ _ _ found); reflexivity.
Qed.

Lemma other_deletes (actor : User) :
  comment_userId comment <> userId ->
  find (Prisma.has_id userId) (users db) = Some actor ->
  CommentService.remove id userId (role_name (user_role actor)) db
  = if Policy.member (user_role actor) privilegedRoles then comment_delete_done id db
    else (Throw (Http (ForbiddenException "You can only delete your own comments")), db).
Proof.
  intros Hother Hactor. unfold CommentService.remove, try_catch, bind.
  rewrite comment_findUnique_runs, found.
  apply Z.eqb_neq in Hother. rewrite Hother. cbn [negb].
  rewrite is_super_admin.
  destruct (user_role actor) eqn:E; cbn [Role_eqb];
    [| unfold CommentService.role_is_not, bind;
       rewrite user_findUnique_id_runs, Hactor, E ..];
    simpl; try rewrite (@comment_delete_runs _ _ _ found); reflexivity.
Qed.

Lemma stranger_is_refused (userRole : string) :
  comment_userId comment <> userId ->
  find (Prisma.has_id userId) (users db) = None ->
  userRole <> "SUPER_ADMIN" ->
  CommentService.update id userId dto db
  = (Throw (Http (ForbiddenException "You can only update your own comments")), db)
  /\ CommentService.remove id userId userRole db
     = (Throw (Http (ForbiddenException "You can only delete your own comments")), db).
Proof.
  intros Hother Hnone Hrole.
  unfold CommentService.update, CommentService.remove, try_catch, bind.
  rewrite comment_findUnique_runs, found.
  apply Z.eqb_neq in Hother. rewrite Hother.
  apply String.eqb_neq in Hrole. rewrite Hrole. cbn [negb].
  unfold bind. rewrite user_findUnique_id_runs, Hnone. split; reflexivity.
Qed.

End CommentMutation.

(** C5. For a comment that exists: its owner updates and deletes it
    whatever role is presented and whether or not a user row is found; an
    actor with a user row, presenting the role of that row, updates and
    deletes it exactly when [canMutate] holds for the privileged roles
    ADMIN, EDITOR, SUPER_ADMIN, and is refused with ForbiddenException and
    an unchanged store otherwise; the role SUPER_ADMIN deletes any comment;
    a non-owner without a user row, not presenting SUPER_ADMIN, is refused
    with ForbiddenException; and a deleted comment is no longer found. *)
Theorem comment_mutation_is_ownership_or_privileged_role :
  forall (id userId : Z) (dto : CommentService.UpdateCommentDto) (db : Db)
         (comment : Comment),
    find (fun c => comment_id c =? id) (comments db) = Some comment ->
    (comment_userId comment = userId ->
     CommentService.update id userId dto db = comment_update_done id dto comment db
     /\ forall userRole : string,
         CommentService.remove id userId userRole db = comment_delete_done id db)
    /\ (forall actor : User,
           find (Prisma.has_id userId) (users db) = Some actor ->
           CommentService.update id userId dto db
           = (if Policy.canMutate userId (user_role actor) (comment_userId comment)
                                  privilegedRoles
              then comment_update_done id dto comment db
              else (Throw (Http (ForbiddenException
                                   "You can only update your own comments")), db))
           /\ CommentService.remove id userId (role_name (user_role actor)) db
              = (if Policy.canMutate userId (user_role actor) (comment_userId comment)
                                     privilegedRoles
                 then comment_delete_done id db
                 else (Throw (Http (ForbiddenException
                                      "You can only delete your own comments")), db)))
    /\ CommentService.remove id userId "SUPER_ADMIN" db = comment_delete_done id db
    /\ (forall userRole : string,
           comment_userId comment <> userId ->
           find (Prisma.has_id userId) (users db) = None ->
           userRole <> "SUPER_ADMIN" ->
           CommentService.update id userId dto db
           = (Throw (Http (ForbiddenException "You can only update your own comments")), db)
           /\ CommentService.remove id userId userRole db
              = (Throw (Http (ForbiddenException "You can only delete your own comments")),
                 db))
    /\ find (fun c => comment_id c =? id) (comments (comment_deleted id db)) = None.
Proof.
  intros id userId dto db comment Hfound.
  split; [| split; [| split; [| split]]].
  - intro Hown. split.
    + apply owner_updates; assumption.
    + intro userRole. eapply owner_deletes; eassumption.
  - intros actor Hactor. unfold Policy.canMutate.
    destruct (Z.eqb_spec userId (comment_userId comment)) as [Hown | Hother]; simpl.
    + split; [apply owner_updates | eapply owner_deletes]; try eassumption; congruence.
    + split; [apply other_updates | eapply other_deletes]; try eassumption; congruence.
  - eapply super_admin_deletes; eassumption.
  - intros userRole Hother Hnone Hrole. eapply stranger_is_refused; eassumption.
  - apply comment_deleted_is_gone.
Qed.

(** C5, worked: on the comment of USER carol (id 4), ADMIN alice (id 2)
    may update, REPORTER bob (id 3) may not. *)
Lemma comment_mutation_is_ownership_or_privileged_role_witness :
  find (fun c => comment_id c =? 1) (comments Fixture.db0) = Some Fixture.remark
  /\ CommentService.update 1 2 (CommentService.mkUpdateCommentDto (Some "Edited")) Fixture.db0
     = (Return (mkComment 1 "Edited" 4 1),
        set_comments [mkComment 1 "Edited" 4 1] Fixture.db0)
  /\ CommentService.remove 1 3 "REPORTER" Fixture.db0
     = (Throw (Http (ForbiddenException "You can only delete your own comments")),
        Fixture.db0).
Proof.
  split; [reflexivity |].
  pose proof (@comment_mutation_is_ownership_or_privileged_role
                1 2 (CommentService.mkUpdateCommentDto (Some "Edited"))
                Fixture.db0 Fixture.remark eq_refl) as Halice.
  pose proof (@comment_mutation_is_ownership_or_privileged_role
                1 3 (CommentService.mkUpdateCommentDto None)
                Fixture.db0 Fixture.remark eq_refl) as Hbob.
  split.
  - exact (proj1 (proj1 (proj2 Halice) Fixture.alice eq_refl)).
  - exact (proj2 (proj1 (proj2 Hbob) Fixture.bob eq_refl)).
Defined.

(* ================================================================== *)
(** ** Deleting an identity *)

(** [UserService.remove] on a user that exists, branch by branch. *)
Lemma remove_runs (id requestingUserId : Z) (R : string) (db : Db) (target : User) :
  find (Prisma.has_id id) (users db) = Some target ->
  UserService.remove id requestingUserId R db
  = if Role_eqb (user_role target) SUPER_ADMIN then
      (Throw (Http (ForbiddenException "Cannot delete SUPER_ADMIN user")), db)
    else if id =? requestingUserId then
      (Throw (Http (ForbiddenException "You cannot delete your own account")), db)
    else if has_articles id db then
      (Throw (Http (BadRequestException
                      "Foreign key constraint failed: Article_authorId_fkey (index)")), db)
    else (Return "User deleted successfully", user_deleted id db).
Proof.
  intro Hfind. unfold UserService.remove, try_catch, bind.
  rewrite user_findUnique_id_runs, Hfind, is_super_admin.
  destruct (Role_eqb (user_role target) SUPER_ADMIN); [reflexivity |].
  destruct (id =? requestingUserId); [reflexivity |].
  unfold throw_if, ret, Prisma.user_delete, bind, get. rewrite Hfind.
  unfold has_articles. destruct (existsb _ (articles db)); reflexivity.
Qed.

Lemma user_deleted_is_gone (id : Z) (db : Db) :
  find (Prisma.has_id id) (users (user_deleted id db)) = None.
Proof.
  unfold user_deleted. simpl. induction (users db) as [| x xs IH]; simpl.
  - reflexivity.
  - destruct (Prisma.has_id id x) eqn:E; simpl; [exact IH | rewrite E; exact IH].
Qed.

(** C6. For a target that exists, [UserService.remove] refuses with
    ForbiddenException exactly when [canDeleteIdentity] is false, that is
    when the target is SUPER_ADMIN or the actor, and then leaves the store
    as it was; the role of the actor plays no part; otherwise the deletion
    is handed to the store, which removes the row unless an article still
    names the user as its author. *)
Theorem identity_deletion_is_denied_for_super_admin_and_self :
  (Policy.canDeleteIdentity SUPER_ADMIN false = false
   /\ Policy.canDeleteIdentity USER true = false
   /\ Policy.canDeleteIdentity USER false = true)
  /\ forall (id requestingUserId : Z) (R : string) (db : Db) (target : User),
      find (Prisma.has_id id) (users db) = Some target ->
      (forbidden (fst (UserService.remove id requestingUserId R db))
       <-> Policy.canDeleteIdentity (user_role target) (id =? requestingUserId) = false)
      /\ (Policy.canDeleteIdentity (user_role target) (id =? requestingUserId) = false
          <-> (user_role target = SUPER_ADMIN \/ id = requestingUserId))
      /\ (Policy.canDeleteIdentity (user_role target) (id =? requestingUserId) = false ->
          snd (UserService.remove id requestingUserId R db) = db)
      /\ (forall R' : string,
             UserService.remove id requestingUserId R' db
             = UserService.remove id requestingUserId R db)
      /\ (Policy.canDeleteIdentity (user_role target) (id =? requestingUserId) = true ->
          has_articles id db = false ->
          UserService.remove id requestingUserId R db
          = (Return "User deleted successfully", user_deleted id db)
          /\ find (Prisma.has_id id) (users (user_deleted id db)) = None).
Proof.
  split; [repeat split |].
  intros id rid R db target Hfind.
  unfold Policy.canDeleteIdentity.
  split; [| split; [| split; [| split]]].
  - rewrite (@remove_runs id rid R db target Hfind).
    destruct (Role_eqb (user_role target) SUPER_ADMIN);
      [split; [reflexivity | intros _; eexists; reflexivity] |].
    destruct (id =? rid);
      [split; [reflexivity | intros _; eexists; reflexivity] |].
    destruct (has_articles id db); simpl;
      (split; [intros [m Hm]; discriminate Hm | discriminate]).
  - rewrite negb_false_iff, orb_true_iff, Role_eqb_eq, Z.eqb_eq. tauto.
  - intro H. rewrite (@remove_runs id rid R db target Hfind).
    destruct (Role_eqb (user_role target) SUPER_ADMIN); [reflexivity |].
    destruct (id =? rid); [reflexivity | discriminate H].
  - intro R'. rewrite (@remove_runs id rid R' db target Hfind).
    rewrite (@remove_runs id rid R db target Hfind). reflexivity.
  - intros H Hnone. rewrite (@remove_runs id rid R db target Hfind).
    destruct (Role_eqb (user_role target) SUPER_ADMIN); [discriminate H |].
    destruct (id =? rid); [discriminate H |].
    rewrite Hnone. split; [reflexivity | apply user_deleted_is_gone].
Qed.

(** C6, worked: SUPER_ADMIN root (id 1) deletes USER carol (id 4), whose
    comment goes with her. *)
Lemma identity_deletion_is_denied_for_super_admin_and_self_witness :
  find (Prisma.has_id 4) (users Fixture.db0) = Some Fixture.carol
  /\ Policy.canDeleteIdentity (user_role Fixture.carol) (4 =? 1) = true
  /\ has_articles 4 Fixture.db0 = false
  /\ UserService.remove 4 1 "SUPER_ADMIN" Fixture.db0
     = (Return "User deleted successfully",
        mkDb [Fixture.root; Fixture.alice; Fixture.bob] [Fixture.story] [] [1] [] 4).
Proof.
  split; [reflexivity | split; [reflexivity | split; [reflexivity |]]].
  exact (proj1 (proj2 (proj2 (proj2 (proj2
           (proj2 identity_deletion_is_denied_for_super_admin_and_self
                  4 1 "SUPER_ADMIN" Fixture.db0 Fixture.carol eq_refl))))
           eq_refl eq_refl)).
Defined.

(* ================================================================== *)
(** ** Registration and login *)

Lemma find_none_existsb {A} (f : A -> bool) (l : list A) :
  find f l = None -> existsb f l = false.
Proof.
  induction l as [| x xs IH]; simpl; [reflexivity |].
  destruct (f x); [discriminate | exact IH].
Qed.

Lemma find_fresh_last {A} (f : A -> bool) (l : list A) (x : A) :
  find f l = None -> f x = true -> find f (l ++ [x]) = Some x.
Proof.
  intros Hnone Hx. induction l as [| y ys IH]; simpl in *.
  - rewrite Hx. reflexivity.
  - destruct (f y); [discriminate | apply IH; exact Hnone].
Qed.

Lemma user_findUnique_email_runs (e : string) (db : Db) :
  Prisma.user_findUnique_email e db
  = (Return (find (Prisma.has_email e) (users db)), db).
Proof. reflexivity. Qed.

Section Auth.

Context {Token : Type} {jwtService : JwtService Token} {crypto : Bcrypt}.

(** [register] with an email that is free, branch by branch. *)
Lemma register_runs (dto : AuthService.RegisterDto) (db : Db) :
  find (Prisma.has_email (AuthService.reg_email dto)) (users db) = None ->
  AuthService.register dto db
  = match AuthService.reg_role dto with
    | Some SUPER_ADMIN =>
        (Throw (Http (ForbiddenException "Cannot register with SUPER_ADMIN role")), db)
    | Some r =>
        (Return (AuthService.mkSession (select (registered dto r db))
                                       (sign (AuthService.payload_of (registered dto r db)))),
         user_added (registered dto r db) db)
    | None =>
        (Return (AuthService.mkSession (select (registered dto USER db))
                                       (sign (AuthService.payload_of (registered dto USER db)))),
         user_added (registered dto USER db) db)
    end.
Proof.
  intro Hfree. unfold AuthService.register, bind.
  rewrite user_findUnique_email_runs, Hfree.
  destruct (AuthService.reg_role dto) as [[] |]; try reflexivity;
    unfold Prisma.user_create, bind, get, put, throw_if, ret; simpl;
    rewrite (find_none_existsb _ _ Hfree); reflexivity.
Qed.

Lemma register_duplicate (dto : AuthService.RegisterDto) (db : Db) (u : User) :
  find (Prisma.has_email (AuthService.reg_email dto)) (users db) = Some u ->
  AuthService.register dto db
  = (Throw (Http (ConflictException "User with this email already exists")), db).
Proof.
  intro Htaken. unfold AuthService.register, bind.
  rewrite user_findUnique_email_runs, Htaken. reflexivity.
Qed.

End Auth.

(** C7. [register] with a free email and the role SUPER_ADMIN throws
    ForbiddenException, and with a taken email throws ConflictException;
    in both cases no row is written: the store is as it was. *)
Theorem register_refuses_super_admin_and_duplicates :
  forall (Token : Type) (jwtService : JwtService Token) (crypto : Bcrypt)
         (dto : AuthService.RegisterDto) (db : Db),
    (find (Prisma.has_email (AuthService.reg_email dto)) (users db) = None ->
     AuthService.reg_role dto = Some SUPER_ADMIN ->
     AuthService.register dto db
     = (Throw (Http (ForbiddenException "Cannot register with SUPER_ADMIN role")), db))
    /\ (forall u : User,
           find (Prisma.has_email (AuthService.reg_email dto)) (users db) = Some u ->
           AuthService.register dto db
           = (Throw (Http (ConflictException "User with this email already exists")), db)).
Proof.
  intros Token jwtService crypto dto db. split.
  - intros Hfree Hrole. rewrite (register_runs dto db Hfree), Hrole. reflexivity.
  - intros u Htaken. exact (register_duplicate dto db Htaken).
Qed.

(** C7, worked: a stranger asks for SUPER_ADMIN; somebody registers with
    the email of alice. *)
Lemma register_refuses_super_admin_and_duplicates_witness :
  (find (Prisma.has_email "mallory@example.com") (users Fixture.db0) = None
   /\ @AuthService.register _ Fixture.jwt Fixture.bcrypt
        (AuthService.mkRegisterDto "mallory@example.com" "Mallory" "secret123" None
                                   (Some SUPER_ADMIN)) Fixture.db0
      = (Throw (Http (ForbiddenException "Cannot register with SUPER_ADMIN role")),
         Fixture.db0))
  /\ (find (Prisma.has_email "alice@example.com") (users Fixture.db0) = Some Fixture.alice
      /\ @AuthService.register _ Fixture.jwt Fixture.bcrypt
           (AuthService.mkRegisterDto "alice@example.com" "Alice Again" "secret123" None
                                      None) Fixture.db0
         = (Throw (Http (ConflictException "User with this email already exists")),
            Fixture.db0)).
Proof.
  split; (split; [reflexivity |]).
  - exact (proj1 (@register_refuses_super_admin_and_duplicates _ Fixture.jwt Fixture.bcrypt
                    (AuthService.mkRegisterDto "mallory@example.com" "Mallory" "secret123"
                                               None (Some SUPER_ADMIN)) Fixture.db0)
                 eq_refl eq_refl).
  - exact (proj2 (@register_refuses_super_admin_and_duplicates _ Fixture.jwt Fixture.bcrypt
                    (AuthService.mkRegisterDto "alice@example.com" "Alice Again" "secret123"
                                               None None) Fixture.db0)
                 Fixture.alice eq_refl).
Defined.

(** C10. [register] with a free email and any role but SUPER_ADMIN
    returns: the row is inserted with exactly the role asked for (ADMIN
    included), it is the row then found under that email, and the session
    carries that row without its password and a token signed for it. *)
Theorem register_grants_any_role_below_super_admin :
  forall (Token : Type) (jwtService : JwtService Token) (crypto : Bcrypt)
         (dto : AuthService.RegisterDto) (db : Db) (r : Role),
    find (Prisma.has_email (AuthService.reg_email dto)) (users db) = None ->
    AuthService.reg_role dto = Some r ->
    r <> SUPER_ADMIN ->
    AuthService.register dto db
    = (Return (AuthService.mkSession (select (registered dto r db))
                 (sign (AuthService.payload_of (registered dto r db)))),
       user_added (registered dto r db) db)
    /\ user_role (registered dto r db) = r
    /\ find (Prisma.has_email (AuthService.reg_email dto))
            (users (user_added (registered dto r db) db))
       = Some (registered dto r db).
Proof.
  intros Token jwtService crypto dto db r Hfree Hrole Hr. split; [| split].
  - rewrite (register_runs dto db Hfree), Hrole.
    destruct r; [congruence | reflexivity ..].
  - reflexivity.
  - unfold user_added. simpl. apply find_fresh_last; [exact Hfree |].
    unfold Prisma.has_email, registered. simpl. apply String.eqb_refl.
Qed.

(** C10, worked: an anonymous caller registers as ADMIN. *)
Lemma register_grants_any_role_below_super_admin_witness :
  find (Prisma.has_email "mallory@example.com") (users Fixture.db0) = None
  /\ ADMIN <> SUPER_ADMIN
  /\ @AuthService.register _ Fixture.jwt Fixture.bcrypt
       (AuthService.mkRegisterDto "mallory@example.com" "Mallory" "secret123" None
                                  (Some ADMIN)) Fixture.db0
     = (Return (AuthService.mkSession
                  (mkUserView 5 "mallory@example.com" "Mallory" ADMIN None)
                  (mkJwtPayload 5 "mallory@example.com" ADMIN)),
        mkDb [Fixture.root; Fixture.alice; Fixture.bob; Fixture.carol;
              mkUser 5 "mallory@example.com" "$2b$10$secret123" "Mallory" None ADMIN]
             [Fixture.story] [Fixture.remark] [1] [] 5).
Proof.
  split; [reflexivity | split; [discriminate |]].
  refine (proj1 (@register_grants_any_role_below_super_admin _ Fixture.jwt Fixture.bcrypt
                   (AuthService.mkRegisterDto "mallory@example.com" "Mallory" "secret123"
                                              None (Some ADMIN))
                   Fixture.db0 ADMIN eq_refl eq_refl _)).
  discriminate.
Defined.

(** C8. A login with an unknown email and a login with a known email
    whose password does not verify end alike: both throw
    UnauthorizedException with the message Invalid credentials, and both
    leave the store as it was. *)
Theorem login_failures_are_indistinguishable :
  forall (Token : Type) (jwtService : JwtService Token) (crypto : Bcrypt)
         (unknown known : AuthService.LoginDto) (db : Db) (u : User),
    find (Prisma.has_email (AuthService.login_email unknown)) (users db) = None ->
    find (Prisma.has_email (AuthService.login_email known)) (users db) = Some u ->
    bcrypt_compare (AuthService.login_password known) (user_password u) = false ->
    AuthService.login unknown db
    = (Throw (Http (UnauthorizedException "Invalid credentials")), db)
    /\ AuthService.login known db = AuthService.login unknown db.
Proof.
  intros Token jwtService crypto unknown known db u Hunknown Hknown Hwrong.
  assert (H1 : AuthService.login unknown db
               = (Throw (Http (UnauthorizedException "Invalid credentials")), db)).
  { unfold AuthService.login, bind.
    rewrite user_findUnique_email_runs, Hunknown. reflexivity. }
  split; [exact H1 |]. rewrite H1.
  unfold AuthService.login, bind.
  rewrite user_findUnique_email_runs, Hknown.
  unfold AuthService.comparePasswords. rewrite Hwrong. reflexivity.
Qed.

(** C8, worked: nobody@example.com is unknown; alice is known and the
    password is wrong. *)
Lemma login_failures_are_indistinguishable_witness :
  find (Prisma.has_email "nobody@example.com") (users Fixture.db0) = None
  /\ find (Prisma.has_email "alice@example.com") (users Fixture.db0) = Some Fixture.alice
  /\ @bcrypt_compare Fixture.bcrypt "wrong-pw" (user_password Fixture.alice) = false
  /\ @AuthService.login _ Fixture.jwt Fixture.bcrypt
       (AuthService.mkLoginDto "alice@example.com" "wrong-pw") Fixture.db0
     = @AuthService.login _ Fixture.jwt Fixture.bcrypt
         (AuthService.mkLoginDto "nobody@example.com" "whatever") Fixture.db0.
Proof.
  split; [reflexivity | split; [reflexivity | split; [reflexivity |]]].
  exact (proj2 (@login_failures_are_indistinguishable _ Fixture.jwt Fixture.bcrypt
                  (AuthService.mkLoginDto "nobody@example.com" "whatever")
                  (AuthService.mkLoginDto "alice@example.com" "wrong-pw")
                  Fixture.db0 Fixture.alice eq_refl eq_refl eq_refl)).
Defined.

(* ================================================================== *)
(** ** Tokens *)

Section Tokens.

Variable mac : string -> JwtPayload -> Z -> Z -> string.
Variable seconds : string -> Z.
Variable options : TokenService.JwtModuleOptions.

(** A token whose expiry has passed is refused as expired. *)
Lemma token_expires (now later : Z) (payload : JwtPayload) :
  now + seconds (TokenService.expiresIn options) < later ->
  TokenService.verify mac options later (TokenService.issue mac seconds options now payload)
  = inl TokenService.ExpiredToken.
Proof.
  intro Hlate. unfold TokenService.verify, TokenService.issue. simpl.
  rewrite String.eqb_refl. simpl.
  apply Z.ltb_lt in Hlate. rewrite Hlate. reflexivity.
Qed.

(** A token whose signature is not the one the secret gives is refused. *)
Lemma token_forged (later : Z) (token : TokenService.AuthToken) :
  TokenService.signature token
  <> mac (TokenService.secret options) (TokenService.claims token)
         (TokenService.issued_at token) (TokenService.expires_at token) ->
  TokenService.verify mac options later token = inl TokenService.InvalidToken.
Proof.
  intro Hsig. unfold TokenService.verify.
  apply String.eqb_neq in Hsig. rewrite Hsig. reflexivity.
Qed.

End Tokens.

(** C9. A token verified no later than its expiry decodes to the subject
    id and the role it was issued for; so does the token [AuthService]
    signs for a user row, whose payload is the id, the email and the role
    of that row. *)
Theorem token_round_trip :
  forall (mac : string -> JwtPayload -> Z -> Z -> string) (seconds : string -> Z)
         (options : TokenService.JwtModuleOptions) (now later : Z),
    later <= now + seconds (TokenService.expiresIn options) ->
    (forall payload : JwtPayload,
        TokenService.verify mac options later
          (TokenService.issue mac seconds options now payload)
        = inr (TokenService.mkIdentityClaim (sub payload) (role payload)))
    /\ (forall user : User,
           TokenService.verify mac options later
             (@sign _ (TokenService.jwtService mac seconds options now)
                    (AuthService.payload_of user))
           = inr (TokenService.mkIdentityClaim (user_id user) (user_role user))).
Proof.
  intros mac seconds options now later Hlive.
  assert (Hrt : forall payload : JwtPayload,
             TokenService.verify mac options later
               (TokenService.issue mac seconds options now payload)
             = inr (TokenService.mkIdentityClaim (sub payload) (role payload))).
  { intro payload. unfold TokenService.verify, TokenService.issue. simpl.
    rewrite String.eqb_refl. simpl.
    apply Z.ltb_ge in Hlive. rewrite Hlive. reflexivity. }
  split; [exact Hrt |].
  intro user. exact (Hrt (AuthService.payload_of user)).
Qed.

(** C9, worked: with the default options (secret defaultSecretKey, span
    60m), the token issued to alice at second 1000 is verified at second
    4600. *)
Lemma token_round_trip_witness :
  TokenService.useFactory (TokenService.mkConfigService None None)
  = TokenService.mkJwtModuleOptions "defaultSecretKey" "60m"
  /\ 4600 <= 1000 + Fixture.seconds "60m"
  /\ TokenService.verify Fixture.mac
       (TokenService.useFactory (TokenService.mkConfigService None None)) 4600
       (TokenService.issue Fixture.mac Fixture.seconds
          (TokenService.useFactory (TokenService.mkConfigService None None)) 1000
          (AuthService.payload_of Fixture.alice))
     = inr (TokenService.mkIdentityClaim 2 ADMIN).
Proof.
  split; [reflexivity | split; [vm_compute; discriminate |]].
  refine (proj1 (@token_round_trip Fixture.mac Fixture.seconds
                   (TokenService.useFactory (TokenService.mkConfigService None None))
                   1000 4600 _) (AuthService.payload_of Fixture.alice)).
  vm_compute. discriminate.
Defined.

(* ================================================================== *)
(** ** Beyond the policy: what the services keep and never do *)

(** X21. [validateRoleCreation] passes, for an actor holding one of the
    five roles, exactly the targets that rank strictly below the actor:
    nobody creates a peer or a superior. *)
Theorem creation_is_strictly_downward :
  forall actor target : Role,
    validateRoleCreation (role_name actor) (role_name target) = Return tt
    <-> rank target < rank actor.
Proof.
  intros actor target.
  destruct actor, target; cbv; split; intro H; try reflexivity; discriminate H.
Qed.

Lemma handled_is_no_prisma_error {A} (body : M A) (what : string) (db : Db) :
  is_prisma_error (fst (try_catch body (handlePrisma what) db)) = false.
Proof.
  unfold try_catch. destruct (body db) as [[a | e] db']; simpl; [reflexivity |].
  destruct e as [h | pe | m]; simpl; try reflexivity.
  destruct (String.eqb (code pe) "P2002"); [reflexivity |].
  destruct (String.eqb (code pe) "P2003"); [reflexivity |].
  destruct (String.eqb (code pe) "P2025"); reflexivity.
Qed.

(** X9. No method of [UserService], [ArticleService] or [CommentService]
    lets a Prisma error out: whatever the store answers, the caller gets a
    value or an exception of the service. *)
Theorem no_prisma_error_escapes_a_resource_service :
  (forall (crypto : Bcrypt) dto rid R db,
      is_prisma_error (fst (UserService.create dto rid R db)) = false)
  /\ (forall (crypto : Bcrypt) id dto rid R req db,
         is_prisma_error (fst (UserService.update id dto rid R req db)) = false)
  /\ (forall id rid R db, is_prisma_error (fst (UserService.remove id rid R db)) = false)
  /\ (forall id req db, is_prisma_error (fst (UserService.findOne id req db)) = false)
  /\ (forall serial dto authorId req db,
         is_prisma_error (fst (ArticleService.create serial dto authorId req db)) = false)
  /\ (forall id req db, is_prisma_error (fst (ArticleService.findOne id req db)) = false)
  /\ (forall s req db, is_prisma_error (fst (ArticleService.findBySlug s req db)) = false)
  /\ (forall id dto rid R req db,
         is_prisma_error (fst (ArticleService.update id dto rid R req db)) = false)
  /\ (forall id rid R db, is_prisma_error (fst (ArticleService.remove id rid R db)) = false)
  /\ (forall serial userId dto db,
         is_prisma_error (fst (CommentService.create serial userId dto db)) = false)
  /\ (forall id db, is_prisma_error (fst (CommentService.findOne id db)) = false)
  /\ (forall id userId dto db,
         is_prisma_error (fst (CommentService.update id userId dto db)) = false)
  /\ (forall id userId R db,
         is_prisma_error (fst (CommentService.remove id userId R db)) = false).
Proof.
  repeat split; intros; apply handled_is_no_prisma_error.
Qed.

(* ================================================================== *)
(** ** Updating a user, branch by branch *)

Lemma validateRoleUpdate_throws_http (a e n : string) (tid rid : Z) (x : Exn) :
  validateRoleUpdate a e n tid rid = Throw x -> exists m, x = Http (ForbiddenException m).
Proof.
  unfold validateRoleUpdate.
  destruct (String.eqb n "SUPER_ADMIN"); [intro H; injection H as <-; eexists; reflexivity |].
  destruct (negb (String.eqb a "SUPER_ADMIN"));
    [intro H; injection H as <-; eexists; reflexivity |].
  destruct (String.eqb e "SUPER_ADMIN"); [intro H; injection H as <-; eexists; reflexivity |].
  destruct (tid =? rid); [intro H; injection H as <-; eexists; reflexivity | discriminate].
Qed.

Lemma role_check_throws_http (R : string) (dto : UpdateUserDto) (u : User)
    (id rid : Z) (x : Exn) :
  role_check R dto u id rid = Throw x -> exists m, x = Http (ForbiddenException m).
Proof.
  unfold role_check. destruct (upd_role dto) as [r |]; [| discriminate].
  destruct (negb _); [apply validateRoleUpdate_throws_http | discriminate].
Qed.

(** [UserService.update] on a user that exists, branch by branch. *)
Lemma update_runs (crypto : Bcrypt) (id requestingUserId : Z) (R : string)
    (dto : UpdateUserDto) (req : option Request) (db : Db) (u : User) :
  find (Prisma.has_id id) (users db) = Some u ->
  update id dto requestingUserId R req db
  = if Role_eqb (user_role u) SUPER_ADMIN && negb (String.eqb R "SUPER_ADMIN") then
      (Throw (Http (ForbiddenException "Cannot modify SUPER_ADMIN user")), db)
    else
      match role_check R dto u id requestingUserId with
      | Throw e => (Throw e, db)
      | Return _ =>
          if (id =? requestingUserId) && is_some (upd_role dto) then
            (Throw (Http (ForbiddenException "You cannot change your own role")), db)
          else if Prisma.email_taken_by_other id (upd_email dto) (users db) then
            (Throw (Http (ConflictException "User already exists: email")), db)
          else
            (Return (select (Prisma.apply_user_update (updatedData dto req) u)),
             user_updated id (updatedData dto req) db)
      end.
Proof.
  intro Hfind. unfold update, try_catch, bind.
  rewrite user_findUnique_id_runs, Hfind, is_super_admin.
  destruct (Role_eqb (user_role u) SUPER_ADMIN && negb (String.eqb R "SUPER_ADMIN"));
    [reflexivity |].
  cbn [throw_if ret].
  assert (Hstep :
    (match upd_role dto with
     | Some role =>
         if negb (String.eqb (role_name role) (role_name (user_role u)))
         then lift (validateRoleUpdate R (role_name (user_role u)) (role_name role)
                                       id requestingUserId)
         else ret tt
     | None => ret tt
     end) db = (role_check R dto u id requestingUserId, db)).
  { unfold role_check. destruct (upd_role dto) as [r |]; [| reflexivity].
    destruct (negb _); reflexivity. }
  rewrite Hstep.
  destruct (role_check R dto u id requestingUserId) as [[] | e] eqn:Hcheck.
  - destruct ((id =? requestingUserId) && is_some (upd_role dto)); [reflexivity |].
    cbn [throw_if ret].
    unfold Prisma.user_update, bind, get, put, ret. rewrite Hfind.
    cbn [Prisma.update_email].
    destruct (Prisma.email_taken_by_other id (upd_email dto) (users db)); reflexivity.
  - destruct (role_check_throws_http _ _ _ _ _ Hcheck) as [m ->]. reflexivity.
Qed.

Lemma update_missing (crypto : Bcrypt) (id requestingUserId : Z) (R : string)
    (dto : UpdateUserDto) (req : option Request) (db : Db) :
  find (Prisma.has_id id) (users db) = None ->
  update id dto requestingUserId R req db
  = (Throw (Http (NotFoundException ("User with ID " ++ show id ++ " not found"))), db).
Proof.
  intro Hfind. unfold update, try_catch, bind.
  rewrite user_findUnique_id_runs, Hfind. reflexivity.
Qed.

(** X3. Nobody can send a role for their own account: [update] of oneself
    with a role in the request, be it the role one already holds, is
    refused with ForbiddenException for every requesting role, and the
    store is as it was. *)
Theorem own_role_cannot_be_sent :
  forall (crypto : Bcrypt) (id : Z) (R : string) (dto : UpdateUserDto)
         (req : option Request) (db : Db) (u : User) (r : Role),
    find (Prisma.has_id id) (users db) = Some u ->
    upd_role dto = Some r ->
    forbidden (fst (update id dto id R req db))
    /\ snd (update id dto id R req db) = db.
Proof.
  intros crypto id R dto req db u r Hfind Hrole.
  rewrite (@update_runs crypto id id R dto req db u Hfind).
  destruct (Role_eqb (user_role u) SUPER_ADMIN && negb (String.eqb R "SUPER_ADMIN"));
    [split; [eexists |]; reflexivity |].
  destruct (role_check R dto u id id) as [[] | e] eqn:Hcheck.
  - rewrite Hrole, Z.eqb_refl. split; [eexists |]; reflexivity.
  - destruct (role_check_throws_http _ _ _ _ _ Hcheck) as [m ->].
    split; [eexists |]; reflexivity.
Qed.

(** X3, worked: SUPER_ADMIN root (id 1) sends his own role with a new
    name. *)
Lemma own_role_cannot_be_sent_witness :
  find (Prisma.has_id 1) (users Fixture.db0) = Some Fixture.root
  /\ forbidden (fst (@update Fixture.bcrypt 1
                       (mkUpdateUserDto None (Some "Root") None None (Some SUPER_ADMIN))
                       1 "SUPER_ADMIN" None Fixture.db0))
  /\ snd (@update Fixture.bcrypt 1
            (mkUpdateUserDto None (Some "Root") None None (Some SUPER_ADMIN))
            1 "SUPER_ADMIN" None Fixture.db0) = Fixture.db0.
Proof.
  split; [reflexivity |].
  exact (@own_role_cannot_be_sent Fixture.bcrypt 1 "SUPER_ADMIN"
           (mkUpdateUserDto None (Some "Root") None None (Some SUPER_ADMIN))
           None Fixture.db0 Fixture.root SUPER_ADMIN eq_refl eq_refl).
Defined.

(** X4. A SUPER_ADMIN row is out of reach of everybody else: [update] of
    it by a requester who does not present SUPER_ADMIN throws
    ForbiddenException and writes nothing; an [update] of it that returns
    was asked by a SUPER_ADMIN, carried no role or the role SUPER_ADMIN
    for somebody else, and left the row a SUPER_ADMIN. *)
Theorem super_admin_row_is_modified_only_by_super_admin :
  forall (crypto : Bcrypt) (id requestingUserId : Z) (R : string) (dto : UpdateUserDto)
         (req : option Request) (db : Db) (u : User),
    find (Prisma.has_id id) (users db) = Some u ->
    user_role u = SUPER_ADMIN ->
    (R <> "SUPER_ADMIN" ->
     update id dto requestingUserId R req db
     = (Throw (Http (ForbiddenException "Cannot modify SUPER_ADMIN user")), db))
    /\ (forall (v : UserView) (db' : Db),
           update id dto requestingUserId R req db = (Return v, db') ->
           R = "SUPER_ADMIN"
           /\ (upd_role dto = None
               \/ (upd_role dto = Some SUPER_ADMIN /\ id <> requestingUserId))
           /\ view_role v = SUPER_ADMIN).
Proof.
  intros crypto id rid R dto req db u Hfind Hsa.
  rewrite (@update_runs crypto id rid R dto req db u Hfind).
  unfold role_check. rewrite Hsa. cbn [Role_eqb andb role_name].
  split.
  - intro HR. apply String.eqb_neq in HR. rewrite HR. reflexivity.
  - intros v db'.
    destruct (String.eqb_spec R "SUPER_ADMIN") as [-> | HR]; [| discriminate].
    cbn [negb].
    destruct (upd_role dto) as [[] |] eqn:Hrole; cbn;
      try discriminate.
    + destruct (Z.eqb_spec id rid) as [-> | Hid]; cbn; [discriminate |].
      destruct (Prisma.email_taken_by_other _ _ _); [discriminate |].
      intro H. injection H as <- <-. cbn. rewrite Hsa, Hrole.
      split; [reflexivity | split; [right; split; [reflexivity | assumption] | reflexivity]].
    + rewrite andb_false_r.
      destruct (Prisma.email_taken_by_other _ _ _); [discriminate |].
      intro H. injection H as <- <-. cbn. rewrite Hsa, Hrole.
      split; [reflexivity | split; [left; reflexivity | reflexivity]].
Qed.

(** X4, worked: ADMIN alice (id 2) tries to rename SUPER_ADMIN root. *)
Lemma super_admin_row_is_modified_only_by_super_admin_witness :
  find (Prisma.has_id 1) (users Fixture.db0) = Some Fixture.root
  /\ user_role Fixture.root = SUPER_ADMIN
  /\ "ADMIN" <> "SUPER_ADMIN"
  /\ @update Fixture.bcrypt 1 (mkUpdateUserDto None (Some "Owned") None None None)
             2 "ADMIN" None Fixture.db0
     = (Throw (Http (ForbiddenException "Cannot modify SUPER_ADMIN user")), Fixture.db0).
Proof.
  split; [reflexivity | split; [reflexivity | split; [discriminate |]]].
  refine (proj1 (@super_admin_row_is_modified_only_by_super_admin Fixture.bcrypt 1 2
                   "ADMIN" (mkUpdateUserDto None (Some "Owned") None None None)
                   None Fixture.db0 Fixture.root eq_refl eq_refl) _).
  discriminate.
Defined.

(* ================================================================== *)
(** ** Creating a user, branch by branch *)

Lemma existsb_false_find {A} (f : A -> bool) (l : list A) :
  existsb f l = false -> find f l = None.
Proof.
  induction l as [| x xs IH]; simpl; [reflexivity |].
  destruct (f x); [discriminate | exact IH].
Qed.

Lemma validateRoleCreation_throws (R T : string) (x : Exn) :
  validateRoleCreation R T = Throw x -> handlePrisma "User already exists" x = x.
Proof.
  unfold validateRoleCreation, validateRoleCreationWith.
  destruct (String.eqb T "SUPER_ADMIN"); [intro H; injection H as <-; reflexivity |].
  destruct (String.eqb R ""); [discriminate |].
  destruct (property roleHierarchy R) as [row | |].
  - destruct (includes row T); [discriminate | intro H; injection H as <-; reflexivity].
  - intro H; injection H as <-; reflexivity.
  - intro H; injection H as <-; reflexivity.
Qed.

(** [UserService.create], branch by branch. *)
Lemma create_runs (crypto : Bcrypt) (dto : CreateUserDto) (rid : option Z)
    (R : option string) (db : Db) :
  create dto rid R db
  = match validateRoleCreation (or_else R "") (role_name (dto_role dto)) with
    | Throw e => (Throw e, db)
    | Return _ =>
        if existsb (Prisma.has_email (dto_email dto)) (users db) then
          (Throw (Http (ConflictException "User already exists: email")), seq_consumed db)
        else (Return (select (created dto db)), user_added (created dto db) db)
    end.
Proof.
  unfold create, try_catch, bind, lift.
  destruct (validateRoleCreation (or_else R "") (role_name (dto_role dto)))
    as [[] | e] eqn:Hv.
  - unfold Prisma.user_create, bind, get, put, ret. cbn [Prisma.create_email].
    destruct (existsb (Prisma.has_email (dto_email dto)) (users db)); reflexivity.
  - rewrite (validateRoleCreation_throws _ _ Hv). reflexivity.
Qed.

(* ================================================================== *)
(** ** The keys of the user table *)

Lemma NoDup_snoc {A} (l : list A) (x : A) :
  NoDup l -> ~ In x l -> NoDup (l ++ [x]).
Proof.
  intros Hl. induction Hl as [| y ys Hy Hys IH]; intro Hx; simpl.
  - constructor; [intros [] | constructor].
  - constructor.
    + rewrite in_app_iff. intros [H | [H | []]]; [contradiction |].
      apply Hx. left. symmetry. exact H.
    + apply IH. intro H. apply Hx. right. exact H.
Qed.

Lemma keys_survive_filter {Row Key} (rows : list Row) (key : Row -> Key)
    (kept : Row -> bool) :
  NoDup (map key rows) -> NoDup (map key (filter kept rows)).
Proof.
  intro Hkeys. induction rows as [| r rest IH]; simpl in *; [constructor |].
  inversion Hkeys as [| ? ? Hr Hrest]; subst.
  destruct (kept r); simpl; [| apply IH; exact Hrest].
  constructor; [| apply IH; exact Hrest].
  intro Hin. apply Hr. apply in_map_iff in Hin. destruct Hin as (y & Hy & Hin).
  apply filter_In in Hin. apply in_map_iff. exists y. tauto.
Qed.

Lemma free_email_not_in (e : string) (l : list User) :
  find (Prisma.has_email e) l = None -> ~ In e (map user_email l).
Proof.
  intros Hfree Hin. apply in_map_iff in Hin. destruct Hin as (u & Hu & Hin).
  apply (find_none _ _ Hfree) in Hin. unfold Prisma.has_email in Hin.
  rewrite Hu, String.eqb_refl in Hin. discriminate Hin.
Qed.

Lemma next_id_not_in (s : Z) (l : list User) :
  Forall (fun u => user_id u <= s) l -> ~ In (s + 1) (map user_id l).
Proof.
  intros Hall Hin. apply in_map_iff in Hin. destruct Hin as (u & Hu & Hin).
  rewrite Forall_forall in Hall. specialize (Hall u Hin). lia.
Qed.


(** Appending the row that draws the next id, under a free email. *)
Lemma sound_user_added (u : User) (db : Db) :
  sound db ->
  user_id u = user_seq db + 1 ->
  find (Prisma.has_email (user_email u)) (users db) = None ->
  sound (user_added u db).
Proof.
  intros (Hids & Hemails & Hseq) Hid Hfree.
  unfold sound, unique_ids, unique_emails, seq_ahead, user_added in *. simpl.
  rewrite !map_app. simpl. repeat split.
  - apply NoDup_snoc; [exact Hids |]. rewrite Hid. apply next_id_not_in. exact Hseq.
  - apply NoDup_snoc; [exact Hemails |]. apply free_email_not_in. exact Hfree.
  - apply Forall_app. split.
    + eapply Forall_impl; [| exact Hseq]. simpl. intros a Ha. lia.
    + constructor; [lia | constructor].
Qed.

Lemma sound_seq_consumed (db : Db) : sound db -> sound (seq_consumed db).
Proof.
  intros (Hids & Hemails & Hseq). repeat split; try assumption.
  unfold seq_ahead, seq_consumed in *. simpl.
  eapply Forall_impl; [| exact Hseq]. simpl. intros a Ha. lia.
Qed.

Lemma sound_user_deleted (id : Z) (db : Db) : sound db -> sound (user_deleted id db).
Proof.
  intros (Hids & Hemails & Hseq).
  unfold sound, unique_ids, unique_emails, seq_ahead, user_deleted in *. simpl.
  repeat split.
  - apply keys_survive_filter. exact Hids.
  - apply keys_survive_filter. exact Hemails.
  - rewrite Forall_forall in *. intros u Hin. apply filter_In in Hin.
    apply Hseq. tauto.
Qed.

Lemma ids_after_update (id : Z) (data : Prisma.UserUpdateInput) (l : list User) :
  map user_id (map (fun x => if Prisma.has_id id x
                             then Prisma.apply_user_update data x else x) l)
  = map user_id l.
Proof.
  rewrite map_map. apply map_ext. intro x. destruct (Prisma.has_id id x); reflexivity.
Qed.

Lemma untouched_without_id (id : Z) (data : Prisma.UserUpdateInput) (l : list User) :
  ~ In id (map user_id l) ->
  map (fun x => if Prisma.has_id id x then Prisma.apply_user_update data x else x) l = l.
Proof.
  induction l as [| x xs IH]; simpl; intro H; [reflexivity |].
  destruct (Prisma.has_id id x) eqn:E.
  - exfalso. apply H. left. unfold Prisma.has_id in E. apply Z.eqb_eq in E. exact E.
  - f_equal. apply IH. tauto.
Qed.

Lemma emails_after_update (id : Z) (data : Prisma.UserUpdateInput) (l : list User) :
  NoDup (map user_id l) ->
  NoDup (map user_email l) ->
  Prisma.email_taken_by_other id (Prisma.update_email data) l = false ->
  NoDup (map user_email
             (map (fun x => if Prisma.has_id id x
                            then Prisma.apply_user_update data x else x) l)).
Proof.
  intros Hids Hemails Hfree.
  destruct (Prisma.update_email data) as [e |] eqn:He.
  - simpl in Hfree. induction l as [| x xs IH]; simpl; [constructor |].
    simpl in Hids, Hemails, Hfree.
    inversion Hids as [| ? ? Hx Hxs]; subst.
    inversion Hemails as [| ? ? Hex Hexs]; subst.
    apply orb_false_iff in Hfree. destruct Hfree as [Hhere Hrest].
    assert (Hothers : forall y, In y xs -> Prisma.has_id id y = false ->
                                user_email y <> e).
    { intros y Hy Hny Heq.
      assert (Htrue : existsb (fun u => Prisma.has_email e u && negb (Prisma.has_id id u))
                              xs = true).
      { apply existsb_exists. exists y. split; [exact Hy |].
        unfold Prisma.has_email. rewrite Heq, String.eqb_refl, Hny. reflexivity. }
      rewrite Hrest in Htrue. discriminate Htrue. }
    destruct (Prisma.has_id id x) eqn:Eid.
    + unfold Prisma.has_id in Eid. apply Z.eqb_eq in Eid.
      rewrite untouched_without_id by (rewrite <- Eid; exact Hx).
      constructor; [| exact Hexs].
      unfold Prisma.apply_user_update. simpl. rewrite He. simpl.
      intro Hin. apply in_map_iff in Hin. destruct Hin as (y & Hy & Hin).
      apply (Hothers y Hin); [| exact Hy].
      unfold Prisma.has_id. apply Z.eqb_neq. intro Hyid. apply Hx.
      apply in_map_iff. exists y. split; [congruence | exact Hin].
    + constructor; [| apply IH; assumption].
      rewrite andb_true_r in Hhere. unfold Prisma.has_email in Hhere.
      apply String.eqb_neq in Hhere.
      intro Hin. apply in_map_iff in Hin. destruct Hin as (y' & Hy' & Hin).
      apply in_map_iff in Hin. destruct Hin as (y & Hy & Hin). subst y'.
      destruct (Prisma.has_id id y).
      * unfold Prisma.apply_user_update in Hy'. simpl in Hy'. rewrite He in Hy'.
        simpl in Hy'. congruence.
      * apply Hex. apply in_map_iff. exists y. split; assumption.
  - assert (Hsame : map user_email
                        (map (fun x => if Prisma.has_id id x
                                       then Prisma.apply_user_update data x else x) l)
                    = map user_email l).
    { rewrite map_map. apply map_ext. intro x.
      destruct (Prisma.has_id id x); [| reflexivity].
      unfold Prisma.apply_user_update. simpl. rewrite He. reflexivity. }
    rewrite Hsame. exact Hemails.
Qed.

Lemma sound_user_updated (id : Z) (data : Prisma.UserUpdateInput) (db : Db) :
  sound db ->
  Prisma.email_taken_by_other id (Prisma.update_email data) (users db) = false ->
  sound (user_updated id data db).
Proof.
  intros (Hids & Hemails & Hseq) Hfree.
  unfold sound, unique_ids, unique_emails, seq_ahead, user_updated in *. simpl.
  repeat split.
  - rewrite ids_after_update. exact Hids.
  - apply emails_after_update; assumption.
  - rewrite Forall_forall in *. intros u' Hin. apply in_map_iff in Hin.
    destruct Hin as (u & Hu & Hin). specialize (Hseq u Hin). subst u'.
    destruct (Prisma.has_id id u); simpl; exact Hseq.
Qed.

Lemma remove_missing (id requestingUserId : Z) (R : string) (db : Db) :
  find (Prisma.has_id id) (users db) = None ->
  UserService.remove id requestingUserId R db
  = (Throw (Http (NotFoundException ("User with ID " ++ show id ++ " not found"))), db).
Proof.
  intro Hfind. unfold UserService.remove, try_catch, bind.
  rewrite user_findUnique_id_runs, Hfind. reflexivity.
Qed.

Lemma login_keeps_store {Token : Type} {jwtService : JwtService Token} {crypto : Bcrypt}
    (dto : AuthService.LoginDto) (db : Db) :
  snd (AuthService.login dto db) = db.
Proof.
  unfold AuthService.login, bind. rewrite user_findUnique_email_runs.
  destruct (find _ (users db)) as [u |]; [| reflexivity].
  unfold throw_if. destruct (negb _); reflexivity.
Qed.

(** X1. The keys of the user table survive every call: if ids and emails
    are unique and the id counter is ahead of every id, they still are
    after [create], [update] and [remove] of [UserService] and after
    [register] and [login] of [AuthService], whatever the arguments and
    whether the call returns or throws. *)
Theorem user_keys_stay_sound :
  forall (Token : Type) (jwtService : JwtService Token) (crypto : Bcrypt) (db : Db),
    sound db ->
    (forall dto rid R, sound (snd (UserService.create dto rid R db)))
    /\ (forall id dto rid R req, sound (snd (UserService.update id dto rid R req db)))
    /\ (forall id rid R, sound (snd (UserService.remove id rid R db)))
    /\ (forall dto, sound (snd (AuthService.register dto db)))
    /\ (forall dto, sound (snd (AuthService.login dto db))).
Proof.
  intros Token jwtService crypto db Hsound. split; [| split; [| split; [| split]]].
  - intros dto rid R. rewrite create_runs.
    destruct (validateRoleCreation _ _) as [[] | e]; [| exact Hsound].
    destruct (existsb _ (users db)) eqn:E; simpl.
    + apply sound_seq_consumed. exact Hsound.
    + apply sound_user_added; [exact Hsound | reflexivity |].
      apply existsb_false_find. exact E.
  - intros id dto rid R req.
    destruct (find (Prisma.has_id id) (users db)) as [u |] eqn:Hfind.
    + rewrite (@update_runs crypto id rid R dto req db u Hfind).
      destruct (_ && _); [exact Hsound |].
      destruct (role_check R dto u id rid) as [[] | e]; [| exact Hsound].
      destruct (_ && _); [exact Hsound |].
      destruct (Prisma.email_taken_by_other id (upd_email dto) (users db)) eqn:E;
        [exact Hsound |].
      simpl. apply sound_user_updated; [exact Hsound | exact E].
    + rewrite (@update_missing crypto id rid R dto req db Hfind). exact Hsound.
  - intros id rid R.
    destruct (find (Prisma.has_id id) (users db)) as [u |] eqn:Hfind.
    + rewrite (@remove_runs id rid R db u Hfind).
      destruct (Role_eqb _ _); [exact Hsound |].
      destruct (id =? rid); [exact Hsound |].
      destruct (has_articles id db); [exact Hsound |].
      simpl. apply sound_user_deleted. exact Hsound.
    + rewrite (@remove_missing id rid R db Hfind). exact Hsound.
  - intro dto.
    destruct (find (Prisma.has_email (AuthService.reg_email dto)) (users db))
      as [u |] eqn:Hfind.
    + rewrite (register_duplicate dto db Hfind). exact Hsound.
    + rewrite (register_runs dto db Hfind).
      destruct (AuthService.reg_role dto) as [[] |]; simpl;
        try exact Hsound;
        (apply sound_user_added; [exact Hsound | reflexivity | exact Hfind]).
  - intro dto. rewrite login_keeps_store. exact Hsound.
Qed.

Lemma fixture_is_sound : sound Fixture.db0.
Proof.
  unfold sound, unique_ids, unique_emails, seq_ahead. simpl. repeat split.
  - repeat constructor; simpl; intuition discriminate.
  - repeat constructor; simpl; intuition discriminate.
  - repeat constructor; simpl; lia.
Qed.

(** X1, worked: on the fixture store, after ADMIN alice takes the email
    of nobody else. *)
Lemma user_keys_stay_sound_witness :
  sound Fixture.db0
  /\ sound (snd (@UserService.update Fixture.bcrypt 3
                   (mkUpdateUserDto (Some "robert@example.com") None None None None)
                   2 "ADMIN" None Fixture.db0)).
Proof.
  split; [exact fixture_is_sound |].
  exact (proj1 (proj2 (@user_keys_stay_sound _ Fixture.jwt Fixture.bcrypt Fixture.db0
                         fixture_is_sound))
               3 (mkUpdateUserDto (Some "robert@example.com") None None None None)
               2 "ADMIN" None).
Defined.

(* ================================================================== *)
(** ** Who is SUPER_ADMIN *)

Lemma found_is_the_only_one (id : Z) (l : list User) (u : User) :
  NoDup (map user_id l) ->
  find (Prisma.has_id id) l = Some u ->
  forall x, In x l -> Prisma.has_id id x = true -> x = u.
Proof.
  intros Hids. induction l as [| y ys IH]; simpl; intros Hfind x Hin Hx; [contradiction |].
  inversion Hids as [| ? ? Hy Hys]; subst.
  destruct (Prisma.has_id id y) eqn:Ey.
  - injection Hfind as <-. destruct Hin as [-> | Hin]; [reflexivity |].
    exfalso. apply Hy. apply in_map_iff. exists x. split; [| exact Hin].
    unfold Prisma.has_id in *. apply Z.eqb_eq in Ey, Hx. congruence.
  - destruct Hin as [-> | Hin]; [congruence |]. apply IH; assumption.
Qed.

Lemma filter_map_same {A B} (p : A -> bool) (f : A -> B) (h : A -> A) (l : list A) :
  (forall x, In x l -> p (h x) = p x /\ f (h x) = f x) ->
  map f (filter p (map h l)) = map f (filter p l).
Proof.
  induction l as [| x xs IH]; simpl; intro H; [reflexivity |].
  destruct (H x (or_introl eq_refl)) as [Hp Hf]. rewrite Hp.
  destruct (p x); simpl; [rewrite Hf; f_equal |]; apply IH; intros y Hy; apply H; right;
    exact Hy.
Qed.

Lemma filter_filter_same {A} (p q : A -> bool) (l : list A) :
  (forall x, In x l -> q x = false -> p x = false) ->
  filter p (filter q l) = filter p l.
Proof.
  induction l as [| x xs IH]; simpl; intro H; [reflexivity |].
  assert (IH' : filter p (filter q xs) = filter p xs)
    by (apply IH; intros y Hy; apply H; right; exact Hy).
  destruct (q x) eqn:Eq; simpl.
  - rewrite IH'. reflexivity.
  - rewrite (H x (or_introl eq_refl) Eq). exact IH'.
Qed.

Lemma super_admins_user_added (u : User) (db : Db) :
  user_role u <> SUPER_ADMIN -> super_admins (user_added u db) = super_admins db.
Proof.
  intro Hrole. unfold super_admins, user_added. simpl.
  rewrite filter_app. simpl. apply Role_eqb_neq in Hrole. rewrite Hrole.
  rewrite app_nil_r. reflexivity.
Qed.

Lemma super_admins_user_updated (id : Z) (data : Prisma.UserUpdateInput) (db : Db)
    (u : User) :
  unique_ids db ->
  find (Prisma.has_id id) (users db) = Some u ->
  Role_eqb (user_role (Prisma.apply_user_update data u)) SUPER_ADMIN
  = Role_eqb (user_role u) SUPER_ADMIN ->
  super_admins (user_updated id data db) = super_admins db.
Proof.
  intros Hids Hfind Hrole. unfold super_admins, user_updated. simpl.
  apply filter_map_same. intros x Hin.
  destruct (Prisma.has_id id x) eqn:E; [| split; reflexivity].
  rewrite (@found_is_the_only_one id (users db) u Hids Hfind x Hin E).
  split; [exact Hrole | reflexivity].
Qed.

Lemma super_admins_user_deleted (id : Z) (db : Db) (u : User) :
  unique_ids db ->
  find (Prisma.has_id id) (users db) = Some u ->
  Role_eqb (user_role u) SUPER_ADMIN = false ->
  super_admins (user_deleted id db) = super_admins db.
Proof.
  intros Hids Hfind Hrole. unfold super_admins, user_deleted. simpl. f_equal.
  apply filter_filter_same. intros x Hin Hx.
  apply negb_false_iff in Hx.
  rewrite (@found_is_the_only_one id (users db) u Hids Hfind x Hin Hx). exact Hrole.
Qed.

Lemma role_check_keeps_super_admin (R : string) (dto : UpdateUserDto) (u : User)
    (id rid : Z) :
  role_check R dto u id rid = Return tt ->
  Role_eqb (Prisma.keep (upd_role dto) (user_role u)) SUPER_ADMIN
  = Role_eqb (user_role u) SUPER_ADMIN.
Proof.
  unfold role_check. destruct (upd_role dto) as [r |]; [| reflexivity].
  rewrite role_name_eqb. simpl.
  destruct (Role_eqb r (user_role u)) eqn:E; simpl.
  - apply Role_eqb_eq in E. rewrite E. reflexivity.
  - intro H. apply validateRoleUpdate_passes in H.
    destruct H as (_ & He & Hn & _).
    destruct r, (user_role u); simpl in *; try reflexivity; congruence.
Qed.

(** X2. No call changes who is SUPER_ADMIN: with unique ids, the ids of
    the SUPER_ADMIN rows are the same before and after [create], [update]
    and [remove] of [UserService] and [register] and [login] of
    [AuthService], whatever the arguments and whoever asks. *)
Theorem super_admins_never_change :
  forall (Token : Type) (jwtService : JwtService Token) (crypto : Bcrypt) (db : Db),
    unique_ids db ->
    (forall dto rid R,
        super_admins (snd (UserService.create dto rid R db)) = super_admins db)
    /\ (forall id dto rid R req,
           super_admins (snd (UserService.update id dto rid R req db)) = super_admins db)
    /\ (forall id rid R,
           super_admins (snd (UserService.remove id rid R db)) = super_admins db)
    /\ (forall dto, super_admins (snd (AuthService.register dto db)) = super_admins db)
    /\ (forall dto, super_admins (snd (AuthService.login dto db)) = super_admins db).
Proof.
  intros Token jwtService crypto db Hids. split; [| split; [| split; [| split]]].
  - intros dto rid R. rewrite create_runs.
    destruct (validateRoleCreation _ _) as [[] | e] eqn:Hv; [| reflexivity].
    destruct (existsb _ (users db)); [reflexivity |].
    simpl. apply super_admins_user_added. simpl.
    intro Hsa. rewrite Hsa in Hv.
    unfold validateRoleCreation, validateRoleCreationWith in Hv. simpl in Hv.
    discriminate Hv.
  - intros id dto rid R req.
    destruct (find (Prisma.has_id id) (users db)) as [u |] eqn:Hfind.
    + rewrite (@update_runs crypto id rid R dto req db u Hfind).
      destruct (_ && _); [reflexivity |].
      destruct (role_check R dto u id rid) as [[] | e] eqn:Hcheck; [| reflexivity].
      destruct (_ && _); [reflexivity |].
      destruct (Prisma.email_taken_by_other _ _ _); [reflexivity |].
      simpl. apply (@super_admins_user_updated id (updatedData dto req) db u Hids Hfind).
      apply (@role_check_keeps_super_admin R dto u id rid Hcheck).
    + rewrite (@update_missing crypto id rid R dto req db Hfind). reflexivity.
  - intros id rid R.
    destruct (find (Prisma.has_id id) (users db)) as [u |] eqn:Hfind.
    + rewrite (@remove_runs id rid R db u Hfind).
      destruct (Role_eqb _ _) eqn:Hrole; [reflexivity |].
      destruct (id =? rid); [reflexivity |].
      destruct (has_articles id db); [reflexivity |].
      simpl. apply (@super_admins_user_deleted id db u Hids Hfind Hrole).
    + rewrite (@remove_missing id rid R db Hfind). reflexivity.
  - intro dto.
    destruct (find (Prisma.has_email (AuthService.reg_email dto)) (users db))
      as [u |] eqn:Hfind.
    + rewrite (register_duplicate dto db Hfind). reflexivity.
    + rewrite (register_runs dto db Hfind).
      destruct (AuthService.reg_role dto) as [[] |]; simpl; try reflexivity;
        apply super_admins_user_added; discriminate.
  - intro dto. rewrite login_keeps_store. reflexivity.
Qed.

(** X2, worked: after SUPER_ADMIN root (id 1) makes ADMIN alice an
    EDITOR, root is still the one SUPER_ADMIN. *)
Lemma super_admins_never_change_witness :
  unique_ids Fixture.db0
  /\ super_admins (snd (@UserService.update Fixture.bcrypt 2
                          (mkUpdateUserDto None None None None (Some EDITOR))
                          1 "SUPER_ADMIN" None Fixture.db0)) = [1].
Proof.
  split; [exact (proj1 fixture_is_sound) |].
  exact (proj1 (proj2 (@super_admins_never_change _ Fixture.jwt Fixture.bcrypt Fixture.db0
                         (proj1 fixture_is_sound)))
               2 (mkUpdateUserDto None None None None (Some EDITOR))
               1 "SUPER_ADMIN" None).
Defined.

(* ================================================================== *)
(** ** What a registration leaves behind *)

Section AfterRegistration.

Context {Token : Type} {jwtService : JwtService Token} {crypto : Bcrypt}.

Variables (dto : AuthService.RegisterDto) (db : Db).
Hypothesis free : find (Prisma.has_email (AuthService.reg_email dto)) (users db) = None.
Hypothesis modest : asked_role dto <> SUPER_ADMIN.

Lemma register_succeeds :
  AuthService.register dto db
  = (Return (AuthService.mkSession
               (select (registered dto (asked_role dto) db))
               (sign (AuthService.payload_of (registered dto (asked_role dto) db)))),
     user_added (registered dto (asked_role dto) db) db).
Proof.
  rewrite (register_runs dto db free). unfold asked_role in *.
  destruct (AuthService.reg_role dto) as [[] |]; try reflexivity.
  exfalso. apply modest. reflexivity.
Qed.

Lemma registered_is_found_by_email :
  find (Prisma.has_email (AuthService.reg_email dto))
       (users (user_added (registered dto (asked_role dto) db) db))
  = Some (registered dto (asked_role dto) db).
Proof.
  unfold user_added. simpl. apply find_fresh_last; [exact free |].
  unfold Prisma.has_email, registered. simpl. apply String.eqb_refl.
Qed.


End AfterRegistration.



(** X7. An email registers once: after a [register] that returns, every
    further [register] with that email, whatever else it carries, throws
    ConflictException and leaves the store as the first one left it. *)
Theorem register_twice_conflicts :
  forall (Token : Type) (jwtService : JwtService Token) (crypto : Bcrypt)
         (dto again : AuthService.RegisterDto) (db : Db),
    find (Prisma.has_email (AuthService.reg_email dto)) (users db) = None ->
    asked_role dto <> SUPER_ADMIN ->
    AuthService.reg_email again = AuthService.reg_email dto ->
    AuthService.register again (snd (AuthService.register dto db))
    = (Throw (Http (ConflictException "User with this email already exists")),
       snd (AuthService.register dto db)).
Proof.
  intros Token jwtService crypto dto again db Hfree Hrole Hsame.
  rewrite (register_succeeds dto db Hfree Hrole). cbn [snd].
  apply (@register_duplicate _ _ _ again _ (registered dto (asked_role dto) db)).
  rewrite Hsame. apply registered_is_found_by_email. exact Hfree.
Qed.

(** X7, worked: mallory registers, then somebody asks for ADMIN under her
    email. *)
Lemma register_twice_conflicts_witness :
  find (Prisma.has_email "mallory@example.com") (users Fixture.db0) = None
  /\ fst (@AuthService.register _ Fixture.jwt Fixture.bcrypt
            (AuthService.mkRegisterDto "mallory@example.com" "Eve" "another-pw" None
                                       (Some ADMIN))
            (snd (@AuthService.register _ Fixture.jwt Fixture.bcrypt
                    (AuthService.mkRegisterDto "mallory@example.com" "Mallory"
                                               "secret123" None None) Fixture.db0)))
     = Throw (Http (ConflictException "User with this email already exists")).
Proof.
  split; [reflexivity |].
  refine (f_equal fst
            (@register_twice_conflicts _ Fixture.jwt Fixture.bcrypt
               (AuthService.mkRegisterDto "mallory@example.com" "Mallory" "secret123"
                                          None None)
               (AuthService.mkRegisterDto "mallory@example.com" "Eve" "another-pw" None
                                          (Some ADMIN))
               Fixture.db0 eq_refl _ eq_refl)).
  discriminate.
Defined.



(* ================================================================== *)
(** ** What is written for a user *)

Lemma absolute_url_is_not_empty (path : string) (req : option Request) :
  String.eqb (constructAbsoluteUrl path req) "" = false.
Proof.
  destruct req as [r |]; simpl; [| reflexivity].
  destruct (protocol r); reflexivity.
Qed.

(** X5. A password is stored hashed: after a [create] that returns, the
    row found under the new email holds bcrypt's hash (cost 10) of the
    password sent, and after an [update] that returns and carried a
    non-empty password, so does the row of the updated id. *)
Theorem passwords_are_stored_hashed :
  forall crypto : Bcrypt,
    (forall (dto : CreateUserDto) (rid : option Z) (R : option string) (db db' : Db)
            (v : UserView),
        UserService.create dto rid R db = (Return v, db') ->
        option_map user_password
                   (find (Prisma.has_email (dto_email dto)) (users db'))
        = Some (bcrypt_hash (dto_password dto) 10))
    /\ (forall (id rid : Z) (R : string) (dto : UpdateUserDto) (req : option Request)
               (db db' : Db) (v : UserView) (p : string),
           upd_password dto = Some p ->
           p <> "" ->
           UserService.update id dto rid R req db = (Return v, db') ->
           option_map user_password (find (Prisma.has_id id) (users db'))
           = Some (bcrypt_hash p 10)).
Proof.
  intro crypto. split.
  - intros dto rid R db db' v H. rewrite create_runs in H.
    destruct (validateRoleCreation _ _) as [[] | e]; [| discriminate H].
    destruct (existsb _ (users db)) eqn:E; [discriminate H |].
    injection H as _ <-. unfold user_added. simpl.
    rewrite find_fresh_last.
    + reflexivity.
    + apply existsb_false_find. exact E.
    + unfold Prisma.has_email, created. simpl. apply String.eqb_refl.
  - intros id rid R dto req db db' v p Hp Hne H.
    destruct (find (Prisma.has_id id) (users db)) as [u |] eqn:Hfind.
    + rewrite (@update_runs crypto id rid R dto req db u Hfind) in H.
      destruct (_ && _); [discriminate H |].
      destruct (role_check R dto u id rid) as [[] | e]; [| discriminate H].
      destruct (_ && _); [discriminate H |].
      destruct (Prisma.email_taken_by_other _ _ _); [discriminate H |].
      injection H as _ <-. unfold user_updated. simpl.
      rewrite find_updated by reflexivity. rewrite Hfind. simpl.
      unfold updatedData. rewrite Hp. simpl.
      apply String.eqb_neq in Hne. rewrite Hne. reflexivity.
    + rewrite (@update_missing crypto id rid R dto req db Hfind) in H. discriminate H.
Qed.

(** X5, worked: ADMIN alice resets the password of REPORTER bob. *)
Lemma passwords_are_stored_hashed_witness :
  "new-bob-pw" <> ""
  /\ option_map user_password
       (find (Prisma.has_id 3)
             (users (snd (@UserService.update Fixture.bcrypt 3
                            (mkUpdateUserDto None None (Some "new-bob-pw") None None)
                            2 "ADMIN" None Fixture.db0))))
     = Some "$2b$10$new-bob-pw".
Proof.
  split; [discriminate |].
  refine (proj2 (passwords_are_stored_hashed Fixture.bcrypt) 3 2 "ADMIN"
            (mkUpdateUserDto None None (Some "new-bob-pw") None None) None
            Fixture.db0 _ _ "new-bob-pw" eq_refl _ _);
    [discriminate | reflexivity].
Defined.

(** X19. An avatar is made absolute when written and again when read:
    after an [update] that returns and carried a non-empty avatar, the
    user it returns has the avatar behind the base URL of the request, and
    [findOne] of that id returns it behind a second base URL, that of the
    reading request, writing nothing. *)
Theorem avatar_is_prefixed_at_write_and_at_read :
  forall (crypto : Bcrypt) (id rid : Z) (R : string) (dto : UpdateUserDto)
         (req req' : option Request) (db db' : Db) (v : UserView) (a : string),
    upd_avatar dto = Some a ->
    a <> "" ->
    UserService.update id dto rid R req db = (Return v, db') ->
    view_avatar v = Some (constructAbsoluteUrl a req)
    /\ exists w : UserView,
        UserService.findOne id req' db' = (Return w, db')
        /\ view_avatar w
           = Some (constructAbsoluteUrl (constructAbsoluteUrl a req) req').
Proof.
  intros crypto id rid R dto req req' db db' v a Ha Hne H.
  destruct (find (Prisma.has_id id) (users db)) as [u |] eqn:Hfind.
  - rewrite (@update_runs crypto id rid R dto req db u Hfind) in H.
    destruct (_ && _); [discriminate H |].
    destruct (role_check R dto u id rid) as [[] | e]; [| discriminate H].
    destruct (_ && _); [discriminate H |].
    destruct (Prisma.email_taken_by_other _ _ _); [discriminate H |].
    injection H as <- <-.
    assert (Havatar : user_avatar (Prisma.apply_user_update (updatedData dto req) u)
                      = Some (constructAbsoluteUrl a req)).
    { unfold updatedData. rewrite Ha. simpl.
      apply String.eqb_neq in Hne. rewrite Hne. reflexivity. }
    split; [exact Havatar |].
    unfold UserService.findOne, try_catch, bind. rewrite user_findUnique_id_runs.
    unfold user_updated. cbn [users set_users].
    rewrite find_updated by reflexivity. rewrite Hfind. cbn [option_map].
    eexists. split; [reflexivity |]. cbn [view_avatar].
    rewrite Havatar. unfold truthy_string.
    rewrite absolute_url_is_not_empty. reflexivity.
  - rewrite (@update_missing crypto id rid R dto req db Hfind) in H. discriminate H.
Qed.

(** X19, worked: ADMIN alice gives REPORTER bob an avatar; no request
    object is passed, so the base URL is that of localhost, twice. *)
Lemma avatar_is_prefixed_at_write_and_at_read_witness :
  "/uploads/bob.png" <> ""
  /\ exists w : UserView,
      UserService.findOne 3 None
        (snd (@UserService.update Fixture.bcrypt 3
                (mkUpdateUserDto None None None (Some "/uploads/bob.png") None)
                2 "ADMIN" None Fixture.db0))
      = (Return w,
         snd (@UserService.update Fixture.bcrypt 3
                (mkUpdateUserDto None None None (Some "/uploads/bob.png") None)
                2 "ADMIN" None Fixture.db0))
      /\ view_avatar w
         = Some "http://localhost:3000http://localhost:3000/uploads/bob.png".
Proof.
  split; [discriminate |].
  refine (proj2 (@avatar_is_prefixed_at_write_and_at_read Fixture.bcrypt 3 2 "ADMIN"
                   (mkUpdateUserDto None None None (Some "/uploads/bob.png") None)
                   None None Fixture.db0 _ _ "/uploads/bob.png" eq_refl _ _));
    [discriminate | reflexivity].
Defined.

(* ================================================================== *)
(** ** Reading and deleting articles *)

Lemma find_map_selected {A} (p : A -> bool) (f : A -> A) (l : list A) :
  (forall x, p (f x) = p x) ->
  find p (map (fun x => if p x then f x else x) l) = option_map f (find p l).
Proof.
  intro Hp. induction l as [| x xs IH]; simpl; [reflexivity |].
  destruct (p x) eqn:E.
  - rewrite Hp, E. reflexivity.
  - rewrite E. exact IH.
Qed.

(** Counting a view, for a selection that finds a row below INT_MAX. *)
Lemma article_increment_runs (selected : Article -> bool) (db : Db) (a : Article) :
  find selected (articles db) = Some a ->
  viewCount a < Prisma.INT_MAX ->
  Prisma.article_increment_viewCount selected db
  = (Return (Prisma.with_viewCount (viewCount a + 1) a), view_counted selected db).
Proof.
  intros Hfind Hroom. unfold Prisma.article_increment_viewCount, bind, get, put, ret.
  rewrite Hfind.
  assert (H : (Prisma.INT_MAX <? viewCount a + 1) = false) by (apply Z.ltb_ge; lia).
  rewrite H. reflexivity.
Qed.

Lemma article_findOne_runs (id : Z) (req : option Request) (db : Db) (a : Article) :
  find (fun x => article_id x =? id) (articles db) = Some a ->
  viewCount a < Prisma.INT_MAX ->
  ArticleService.findOne id req db
  = (Return (ArticleService.withAbsoluteUrls a req),
     view_counted (fun x => article_id x =? id) db).
Proof.
  intros Hfind Hroom. unfold ArticleService.findOne, try_catch, bind.
  rewrite article_findUnique_runs, Hfind.
  rewrite (article_increment_runs _ _ Hfind Hroom). reflexivity.
Qed.



Lemma article_findUnique_slug_runs (s : string) (db : Db) :
  Prisma.article_findUnique_slug s db
  = (Return (find (Prisma.has_slug s) (articles db)), db).
Proof. reflexivity. Qed.

Lemma find_same_selection {A} (p q : A -> bool) (l : list A) :
  (forall x, In x l -> p x = q x) -> find p l = find q l.
Proof.
  induction l as [| x xs IH]; simpl; intro H; [reflexivity |].
  rewrite (H x (or_introl eq_refl)).
  destruct (q x); [reflexivity |]. apply IH. intros y Hy. apply H. right. exact Hy.
Qed.

(** X11. Reading an article by slug counts a view as reading it by id
    does: [findBySlug] returns the row as read and leaves its counter one
    higher; a slug without a row throws NotFoundException and writes
    nothing; and where the slug picks the rows that the id picks, the two
    reads are the same call. *)
Theorem reading_by_slug_counts_a_view :
  (forall (s : string) (req : option Request) (db : Db),
      find (Prisma.has_slug s) (articles db) = None ->
      ArticleService.findBySlug s req db
      = (Throw (Http (NotFoundException ("Article with slug " ++ s ++ " not found"))), db))
  /\ (forall (s : string) (req : option Request) (db : Db) (a : Article),
         find (Prisma.has_slug s) (articles db) = Some a ->
         viewCount a < Prisma.INT_MAX ->
         ArticleService.findBySlug s req db
         = (Return (ArticleService.withAbsoluteUrls a req),
            view_counted (Prisma.has_slug s) db)
         /\ find (Prisma.has_slug s) (articles (view_counted (Prisma.has_slug s) db))
            = Some (Prisma.with_viewCount (viewCount a + 1) a)
         /\ forall id : Z,
             (forall x, In x (articles db) ->
                        Prisma.has_slug s x = (article_id x =? id)) ->
             ArticleService.findBySlug s req db = ArticleService.findOne id req db).
Proof.
  split.
  - intros s req db Hnone. unfold ArticleService.findBySlug, try_catch, bind.
    rewrite article_findUnique_slug_runs, Hnone. reflexivity.
  - intros s req db a Hfind Hroom.
    assert (Hrun : ArticleService.findBySlug s req db
                   = (Return (ArticleService.withAbsoluteUrls a req),
                      view_counted (Prisma.has_slug s) db)).
    { unfold ArticleService.findBySlug, try_catch, bind.
      rewrite article_findUnique_slug_runs, Hfind.
      rewrite (article_increment_runs _ _ Hfind Hroom). reflexivity. }
    split; [exact Hrun | split].
    + unfold view_counted. cbn [articles set_articles].
      rewrite find_map_selected by reflexivity. rewrite Hfind. reflexivity.
    + intros id Hsame. rewrite Hrun.
      assert (Hbyid : find (fun x => article_id x =? id) (articles db) = Some a).
      { rewrite <- Hfind. symmetry. apply find_same_selection. exact Hsame. }
      rewrite (@article_findOne_runs id req db a Hbyid Hroom).
      f_equal. unfold view_counted. f_equal. apply map_ext_in.
      intros x Hx. rewrite (Hsame x Hx). reflexivity.
Qed.

(** X11, worked: the article of the fixture store, by its slug and by its
    id. *)
Lemma reading_by_slug_counts_a_view_witness :
  find (Prisma.has_slug "yangi-yangilik") (articles Fixture.db0) = Some Fixture.story
  /\ viewCount Fixture.story < Prisma.INT_MAX
  /\ ArticleService.findBySlug "yangi-yangilik" None Fixture.db0
     = ArticleService.findOne 1 None Fixture.db0.
Proof.
  split; [reflexivity | split; [reflexivity |]].
  refine (proj2 (proj2 (proj2 reading_by_slug_counts_a_view "yangi-yangilik" None
                          Fixture.db0 Fixture.story eq_refl eq_refl)) 1 _).
  intros x [<- | []]. reflexivity.
Defined.

(** [ArticleService.remove] on an article that exists, branch by branch. *)
Lemma article_remove_runs (id requestingUserId : Z) (R : string) (db : Db) (a : Article) :
  find (fun x => article_id x =? id) (articles db) = Some a ->
  ArticleService.remove id requestingUserId R db
  = if ArticleService.not_author_nor_privileged R a requestingUserId then
      (Throw (Http (BadRequestException "You can only delete your own articles")), db)
    else (Return "Article deleted successfully", article_deleted id db).
Proof.
  intro Hfind. unfold ArticleService.remove, try_catch, bind.
  rewrite article_findUnique_runs, Hfind.
  destruct (ArticleService.not_author_nor_privileged R a requestingUserId);
    [reflexivity |].
  cbn [throw_if ret].
  unfold Prisma.article_delete, bind, get, put, ret. rewrite Hfind. reflexivity.
Qed.

Lemma article_deleted_is_gone (id : Z) (db : Db) :
  find (fun x => article_id x =? id) (articles (article_deleted id db)) = None.
Proof.
  unfold article_deleted. simpl. induction (articles db) as [| x xs IH]; simpl.
  - reflexivity.
  - destruct (article_id x =? id) eqn:E; simpl; [exact IH | rewrite E; exact IH].
Qed.

(** X20. The author of an article, and whoever presents EDITOR, ADMIN or
    SUPER_ADMIN, deletes it: [remove] returns, the article is no longer
    found (a read by id throws NotFoundException), no comment on it is
    left, and the comments on other articles are all kept. *)
Theorem author_or_privileged_deletes_the_article :
  forall (id requestingUserId : Z) (R : string) (db : Db) (a : Article),
    find (fun x => article_id x =? id) (articles db) = Some a ->
    (authorId a = requestingUserId
     \/ R = "SUPER_ADMIN" \/ R = "ADMIN" \/ R = "EDITOR") ->
    ArticleService.remove id requestingUserId R db
    = (Return "Article deleted successfully", article_deleted id db)
    /\ (forall req,
           ArticleService.findOne id req (article_deleted id db)
           = (Throw (Http (NotFoundException
                             ("Article with ID " ++ show id ++ " not found"))),
              article_deleted id db))
    /\ (forall c, In c (comments (article_deleted id db)) <->
                  In c (comments db) /\ comment_articleId c <> id).
Proof.
  intros id rid R db a Hfind Hmay.
  assert (Hguard : ArticleService.not_author_nor_privileged R a rid = false).
  { unfold ArticleService.not_author_nor_privileged.
    destruct Hmay as [Hauthor | [-> | [-> | ->]]]; try reflexivity.
    apply Z.eqb_eq in Hauthor. rewrite Hauthor. simpl. apply andb_false_r. }
  split; [| split].
  - rewrite (@article_remove_runs id rid R db a Hfind), Hguard. reflexivity.
  - intro req. unfold ArticleService.findOne, try_catch, bind.
    rewrite article_findUnique_runs.
    rewrite article_deleted_is_gone. reflexivity.
  - intro c. unfold article_deleted. simpl. rewrite filter_In.
    rewrite negb_true_iff, Z.eqb_neq. tauto.
Qed.

(** X20, worked: an EDITOR (id 9, not the author) deletes the article of
    the fixture store; the comment on it goes with it. *)
Lemma author_or_privileged_deletes_the_article_witness :
  find (fun x => article_id x =? 1) (articles Fixture.db0) = Some Fixture.story
  /\ ArticleService.remove 1 9 "EDITOR" Fixture.db0
     = (Return "Article deleted successfully",
        mkDb (users Fixture.db0) [] [] [1] [] 4).
Proof.
  split; [reflexivity |].
  refine (proj1 (@author_or_privileged_deletes_the_article 1 9 "EDITOR" Fixture.db0
                   Fixture.story eq_refl _)).
  right. right. right. reflexivity.
Defined.

(* ================================================================== *)
(** ** Creating articles and comments *)

Lemma is_some_find {A} (p : A -> bool) (l : list A) : is_some (find p l) = existsb p l.
Proof.
  induction l as [| x xs IH]; simpl; [reflexivity |].
  destruct (p x); [reflexivity | exact IH].
Qed.

Lemma found_id_is_listed (id : Z) (l : list User) :
  existsb (Z.eqb id) (map user_id l) = is_some (find (Prisma.has_id id) l).
Proof.
  induction l as [| x xs IH]; simpl; [reflexivity |].
  unfold Prisma.has_id at 1. rewrite (Z.eqb_sym id (user_id x)).
  destruct (user_id x =? id); [reflexivity | exact IH].
Qed.




Lemma published_is_listed (id : Z) (l : list Article) (a : Article) :
  find (fun x => (article_id x =? id) && isPublished x) l = Some a ->
  existsb (Z.eqb id) (map article_id l) = true.
Proof.
  intro H. apply find_some in H. destruct H as [Hin Ha].
  apply existsb_exists. exists (article_id a). split.
  - apply in_map. exact Hin.
  - apply andb_true_iff in Ha. destruct Ha as [Ha _].
    rewrite Z.eqb_sym. exact Ha.
Qed.

(** [CommentService.create], branch by branch. *)
Lemma comment_create_runs (serial userId : Z) (dto : CommentService.CreateCommentDto)
    (db : Db) :
  CommentService.create serial userId dto db
  = if negb (is_some (find (Prisma.has_id userId) (users db))) then
      (Throw (Http (NotFoundException ("User with ID " ++ show userId ++ " not found"))),
       db)
    else if negb (is_some (published_article (CommentService.new_articleId dto) db)) then
      (Throw (Http (NotFoundException
                      ("Article with ID " ++ show (CommentService.new_articleId dto)
                                          ++ " not found or not published"))), db)
    else (Return (posted serial userId dto), comment_added (posted serial userId dto) db).
Proof.
  unfold CommentService.create, try_catch, bind.
  rewrite user_findUnique_id_runs.
  destruct (find (Prisma.has_id userId) (users db)) as [u |] eqn:Hu; [| reflexivity].
  cbn [is_some negb throw_if ret].
  unfold Prisma.article_findUnique_published, bind, get, ret, published_article.
  destruct (find _ (articles db)) as [a |] eqn:Ha; [| reflexivity].
  cbn [is_some negb throw_if ret].
  unfold Prisma.comment_create, bind, get, put, ret.
  unfold Prisma.missing_ref at 1. rewrite found_id_is_listed, Hu. cbn [is_some negb].
  unfold Prisma.missing_ref. rewrite (published_is_listed _ _ Ha). reflexivity.
Qed.



Lemma unmatched_filter_keeps_all {A} (p : A -> bool) (l : list A) :
  find p l = None -> filter (fun x => negb (p x)) l = l.
Proof.
  induction l as [| x xs IH]; simpl; [reflexivity |].
  destruct (p x); [discriminate |]. simpl. intro H. f_equal. apply IH. exact H.
Qed.

Lemma comment_added_then_deleted (c : Comment) (db : Db) :
  find (fun x => comment_id x =? comment_id c) (comments db) = None ->
  comment_deleted (comment_id c) (comment_added c db) = db.
Proof.
  intro Hfresh. unfold comment_deleted, comment_added. destruct db as [us ars cs cats nps s].
  unfold set_comments. simpl in *. f_equal.
  rewrite filter_app. simpl. rewrite Z.eqb_refl. simpl. rewrite app_nil_r.
  apply (unmatched_filter_keeps_all _ _ Hfresh).
Qed.

(** X14. A new comment belongs to whoever wrote it: after a [create] that
    returns, under an id no comment had, its author updates it, whatever
    role the author has, and deletes it, whatever role is presented; and
    deleting it gives back the store as it was before the comment. *)
Theorem a_new_comment_belongs_to_its_author :
  forall (serial userId : Z) (dto : CommentService.CreateCommentDto) (db : Db)
         (u : User) (a : Article),
    find (Prisma.has_id userId) (users db) = Some u ->
    published_article (CommentService.new_articleId dto) db = Some a ->
    find (fun c => comment_id c =? serial) (comments db) = None ->
    (forall upd : CommentService.UpdateCommentDto,
        fst (CommentService.update serial userId upd
               (snd (CommentService.create serial userId dto db)))
        = Return (mkComment serial
                            (Prisma.keep (CommentService.dto_text upd)
                                         (CommentService.new_text dto))
                            userId (CommentService.new_articleId dto)))
    /\ (forall R : string,
           CommentService.remove serial userId R
             (snd (CommentService.create serial userId dto db))
           = (Return "Comment deleted successfully", db)).
Proof.
  intros serial userId dto db u a Hu Ha Hfresh.
  rewrite comment_create_runs, Hu, Ha. cbn [is_some negb snd].
  assert (Hfound : find (fun c => comment_id c =? serial)
                        (comments (comment_added (posted serial userId dto) db))
                   = Some (posted serial userId dto)).
  { unfold comment_added. cbn [comments set_comments].
    apply find_fresh_last; [exact Hfresh |]. simpl. apply Z.eqb_refl. }
  split.
  - intro upd.
    rewrite (@owner_updates serial userId _ (posted serial userId dto) upd Hfound eq_refl).
    reflexivity.
  - intro R.
    rewrite (@owner_deletes serial userId _ (posted serial userId dto) Hfound R eq_refl).
    unfold comment_delete_done. f_equal.
    apply (comment_added_then_deleted (posted serial userId dto) db). exact Hfresh.
Qed.

(** X14, worked: USER carol (id 4) comments a second time on the article of
    the fixture store, then takes the comment back. *)
Lemma a_new_comment_belongs_to_its_author_witness :
  find (Prisma.has_id 4) (users Fixture.db0) = Some Fixture.carol
  /\ published_article 1 Fixture.db0 = Some Fixture.story
  /\ find (fun c => comment_id c =? 2) (comments Fixture.db0) = None
  /\ CommentService.remove 2 4 "USER"
       (snd (CommentService.create 2 4 (CommentService.mkCreateCommentDto "Again" 1)
               Fixture.db0))
     = (Return "Comment deleted successfully", Fixture.db0).
Proof.
  split; [reflexivity | split; [reflexivity | split; [reflexivity |]]].
  exact (proj2 (@a_new_comment_belongs_to_its_author 2 4
                  (CommentService.mkCreateCommentDto "Again" 1) Fixture.db0
                  Fixture.carol Fixture.story eq_refl eq_refl eq_refl) "USER").
Defined.



(* ================================================================== *)
(** ** Bootstrap *)

Lemma unmatched_filter_is_empty {A} (p : A -> bool) (l : list A) :
  find p l = None -> filter p l = [].
Proof.
  induction l as [| x xs IH]; simpl; [reflexivity |].
  destruct (p x); [discriminate | exact IH].
Qed.

Lemma matched_filter_is_not_empty {A} (p : A -> bool) (l : list A) (x : A) :
  find p l = Some x -> (1 <= List.length (filter p l))%nat.
Proof.
  induction l as [| y ys IH]; simpl; [discriminate |].
  destruct (p y); simpl; [intros _; lia | exact IH].
Qed.

Lemma ensureSingleSuperAdmin_runs (db : Db) :
  AuthService.ensureSingleSuperAdmin db
  = (Return (Z.of_nat (List.length (filter holds_super_admin (users db))) <=? 1), db).
Proof. reflexivity. Qed.

Section Seeding.

Context {crypto : Bcrypt}.

(** [SeedService.ensureSuperAdminExists], branch by branch. *)
Lemma seed_by_role_runs (env : Env) (db : Db) :
  SeedService.ensureSuperAdminExists env db
  = match find holds_super_admin (users db) with
    | Some _ => (Return tt, db)
    | None =>
        if existsb (Prisma.has_email (superAdminEmail env)) (users db)
        then (Throw (Prisma.P2002 "email"), seq_consumed db)
        else (Return tt, user_added (seeded_by_role env db) db)
    end.
Proof.
  unfold SeedService.ensureSuperAdminExists, Prisma.user_findFirst_role,
    try_catch, bind, get, ret.
  change (fun u : User => Role_eqb (user_role u) SUPER_ADMIN) with holds_super_admin.
  destruct (find holds_super_admin (users db)); [reflexivity |].
  cbn [is_some negb]. unfold Prisma.user_create, bind, get, put, ret.
  cbn [Prisma.create_email].
  destruct (existsb (Prisma.has_email (superAdminEmail env)) (users db)); reflexivity.
Qed.

(** [PrismaService.seedSuperAdmin], branch by branch. *)
Lemma seed_by_email_runs (env : Env) (db : Db) :
  PrismaService.seedSuperAdmin env db
  = match find (Prisma.has_email (superAdminEmail env)) (users db) with
    | Some _ => (Return tt, db)
    | None => (Return tt, user_added (seeded_by_email env db) db)
    end.
Proof.
  unfold PrismaService.seedSuperAdmin, bind. rewrite user_findUnique_email_runs.
  destruct (find (Prisma.has_email (superAdminEmail env)) (users db)) eqn:E;
    [reflexivity |].
  cbn [is_some negb]. unfold Prisma.user_create, bind, get, put, ret.
  cbn [Prisma.create_email]. rewrite (find_none_existsb _ _ E). reflexivity.
Qed.

Lemma init_is_seed (env : Env) (db : Db) :
  PrismaService.onModuleInit env db = PrismaService.seedSuperAdmin env db.
Proof.
  unfold PrismaService.onModuleInit. rewrite seed_by_email_runs.
  destruct (find _ (users db)); reflexivity.
Qed.

End Seeding.

(** X16. The seeder keyed on the role keeps SUPER_ADMIN single: where one
    exists [ensureSuperAdminExists] does nothing; where none exists and the
    configured email is free it inserts one SUPER_ADMIN, after which
    [ensureSingleSuperAdmin] answers true and a second run does nothing;
    where none exists and the email belongs to somebody, it throws the
    unique-constraint error of the store and inserts nothing; and in every
    case a store on which [ensureSingleSuperAdmin] answers true stays
    one. *)
Theorem seeding_by_role_keeps_super_admin_single :
  forall (crypto : Bcrypt) (env : Env) (db : Db),
    (forall sa : User,
        find holds_super_admin (users db) = Some sa ->
        SeedService.ensureSuperAdminExists env db = (Return tt, db))
    /\ (find holds_super_admin (users db) = None ->
        find (Prisma.has_email (superAdminEmail env)) (users db) = None ->
        SeedService.ensureSuperAdminExists env db
        = (Return tt, user_added (seeded_by_role env db) db)
        /\ fst (AuthService.ensureSingleSuperAdmin
                  (user_added (seeded_by_role env db) db)) = Return true
        /\ SeedService.ensureSuperAdminExists env (user_added (seeded_by_role env db) db)
           = (Return tt, user_added (seeded_by_role env db) db))
    /\ (forall u : User,
           find holds_super_admin (users db) = None ->
           find (Prisma.has_email (superAdminEmail env)) (users db) = Some u ->
           SeedService.ensureSuperAdminExists env db
           = (Throw (Prisma.P2002 "email"), seq_consumed db))
    /\ (fst (AuthService.ensureSingleSuperAdmin db) = Return true ->
        fst (AuthService.ensureSingleSuperAdmin
               (snd (SeedService.ensureSuperAdminExists env db))) = Return true).
Proof.
  intros crypto env db.
  assert (Hadded : find holds_super_admin (users db) = None ->
                   filter holds_super_admin
                          (users (user_added (seeded_by_role env db) db))
                   = [seeded_by_role env db]).
  { intro Hnone. unfold user_added. cbn [users]. rewrite filter_app.
    rewrite (unmatched_filter_is_empty _ _ Hnone). reflexivity. }
  split; [| split; [| split]].
  - intros sa Hsa. rewrite seed_by_role_runs, Hsa. reflexivity.
  - intros Hnone Hfree. split; [| split].
    + rewrite seed_by_role_runs, Hnone, (find_none_existsb _ _ Hfree). reflexivity.
    + rewrite ensureSingleSuperAdmin_runs. cbn [fst]. rewrite (Hadded Hnone). reflexivity.
    + rewrite seed_by_role_runs.
      assert (Hnow : find holds_super_admin
                          (users (user_added (seeded_by_role env db) db))
                     = Some (seeded_by_role env db)).
      { unfold user_added. cbn [users]. apply find_fresh_last; [exact Hnone |].
        reflexivity. }
      rewrite Hnow. reflexivity.
  - intros u Hnone Htaken. rewrite seed_by_role_runs, Hnone.
    assert (Hex : existsb (Prisma.has_email (superAdminEmail env)) (users db) = true)
      by (rewrite <- is_some_find, Htaken; reflexivity).
    rewrite Hex. reflexivity.
  - intro Hsingle. rewrite seed_by_role_runs.
    destruct (find holds_super_admin (users db)) eqn:Hsa; [exact Hsingle |].
    destruct (existsb _ (users db)); cbn [snd].
    + exact Hsingle.
    + rewrite ensureSingleSuperAdmin_runs. cbn [fst]. rewrite (Hadded eq_refl).
      reflexivity.
Qed.

(** X16, worked: a store with the fixture users but root, seeded with the
    default email and password. *)
Lemma seeding_by_role_keeps_super_admin_single_witness :
  find holds_super_admin [Fixture.alice; Fixture.bob; Fixture.carol] = None
  /\ find (Prisma.has_email (superAdminEmail (mkEnv None None)))
          [Fixture.alice; Fixture.bob; Fixture.carol] = None
  /\ @SeedService.ensureSuperAdminExists Fixture.bcrypt (mkEnv None None)
       (set_users [Fixture.alice; Fixture.bob; Fixture.carol] Fixture.db0)
     = (Return tt,
        mkDb [Fixture.alice; Fixture.bob; Fixture.carol;
              mkUser 5 "admin@sirdaryohaqqiqati.uz" "$2b$10$SuperAdmin123!"
                     "Super Admin" None SUPER_ADMIN]
             [Fixture.story] [Fixture.remark] [1] [] 5).
Proof.
  split; [reflexivity | split; [reflexivity |]].
  exact (proj1 (proj1 (proj2 (@seeding_by_role_keeps_super_admin_single Fixture.bcrypt
                                (mkEnv None None)
                                (set_users [Fixture.alice; Fixture.bob; Fixture.carol]
                                           Fixture.db0)))
                      eq_refl eq_refl)).
Defined.

(** X17. The seeder keyed on the email does not look at roles:
    [PrismaService.onModuleInit] never throws; where the configured email
    has a row, SUPER_ADMIN or not, it does nothing; where the email is
    free it inserts a SUPER_ADMIN even beside an existing one, after which
    [ensureSingleSuperAdmin] answers false; run again it does nothing, and
    neither does the seeder keyed on the role after it. *)
Theorem seeding_by_email_ignores_roles :
  forall (crypto : Bcrypt) (env : Env) (db : Db),
    (forall u : User,
        find (Prisma.has_email (superAdminEmail env)) (users db) = Some u ->
        PrismaService.onModuleInit env db = (Return tt, db))
    /\ (find (Prisma.has_email (superAdminEmail env)) (users db) = None ->
        PrismaService.onModuleInit env db
        = (Return tt, user_added (seeded_by_email env db) db)
        /\ (forall sa : User,
               find holds_super_admin (users db) = Some sa ->
               fst (AuthService.ensureSingleSuperAdmin
                      (user_added (seeded_by_email env db) db)) = Return false)
        /\ SeedService.onModuleInit env (user_added (seeded_by_email env db) db)
           = (Return tt, user_added (seeded_by_email env db) db))
    /\ PrismaService.onModuleInit env (snd (PrismaService.onModuleInit env db))
       = (Return tt, snd (PrismaService.onModuleInit env db)).
Proof.
  intros crypto env db.
  assert (Hfound : find (Prisma.has_email (superAdminEmail env)) (users db) = None ->
                   find (Prisma.has_email (superAdminEmail env))
                        (users (user_added (seeded_by_email env db) db))
                   = Some (seeded_by_email env db)).
  { intro Hfree. unfold user_added. cbn [users].
    apply find_fresh_last; [exact Hfree |].
    unfold Prisma.has_email, seeded_by_email. cbn [user_email]. apply String.eqb_refl. }
  split; [| split].
  - intros u Htaken. rewrite init_is_seed, seed_by_email_runs, Htaken. reflexivity.
  - intro Hfree. split; [| split].
    + rewrite init_is_seed, seed_by_email_runs, Hfree. reflexivity.
    + intros sa Hsa. rewrite ensureSingleSuperAdmin_runs. cbn [fst].
      unfold user_added. cbn [users]. rewrite filter_app, length_app. simpl.
      pose proof (matched_filter_is_not_empty _ _ Hsa) as Hone.
      f_equal. apply Z.leb_gt. lia.
    + unfold SeedService.onModuleInit. rewrite seed_by_role_runs.
      destruct (find holds_super_admin
                     (users (user_added (seeded_by_email env db) db))) eqn:E;
        [reflexivity |].
      exfalso. unfold user_added in E. cbn [users] in E.
      apply find_none with (x := seeded_by_email env db) in E; [discriminate E |].
      apply in_or_app. right. left. reflexivity.
  - rewrite (init_is_seed env db), seed_by_email_runs.
    destruct (find (Prisma.has_email (superAdminEmail env)) (users db)) eqn:E; cbn [snd].
    + rewrite init_is_seed, seed_by_email_runs, E. reflexivity.
    + rewrite init_is_seed, seed_by_email_runs, (Hfound eq_refl). reflexivity.
Qed.

(** X17, worked: the fixture store has its SUPER_ADMIN under the default
    email; seeded with another email it gets a second one. *)
Lemma seeding_by_email_ignores_roles_witness :
  find (Prisma.has_email (superAdminEmail (mkEnv (Some "boss@example.com") None)))
       (users Fixture.db0) = None
  /\ find holds_super_admin (users Fixture.db0) = Some Fixture.root
  /\ super_admins (snd (@PrismaService.onModuleInit Fixture.bcrypt
                          (mkEnv (Some "boss@example.com") None) Fixture.db0))
     = [1; 5]
  /\ fst (AuthService.ensureSingleSuperAdmin
            (user_added (@seeded_by_email Fixture.bcrypt
                           (mkEnv (Some "boss@example.com") None) Fixture.db0)
                        Fixture.db0)) = Return false.
Proof.
  split; [reflexivity | split; [reflexivity | split; [reflexivity |]]].
  exact (proj1 (proj2 (proj1 (proj2 (@seeding_by_email_ignores_roles Fixture.bcrypt
                                       (mkEnv (Some "boss@example.com") None)
                                       Fixture.db0))
                             eq_refl))
               Fixture.root eq_refl).
Defined.

(* ================================================================== *)
(** ** The two DELETE routes of comments *)

(** X18. The route for one's own comment drops the caller's role:
    [removeOwn] on a comment that exists, by a caller with a user row,
    deletes exactly when the caller owns the comment or the row's role is
    ADMIN or EDITOR, and throws ForbiddenException otherwise; so a
    SUPER_ADMIN who is not the owner is refused there, while [remove]
    deletes for the same caller. *)
Theorem remove_own_drops_the_presented_role :
  forall (id : Z) (user : RequestUser) (db : Db) (comment : Comment) (actor : User),
    find (fun c => comment_id c =? id) (comments db) = Some comment ->
    find (Prisma.has_id (caller_id user)) (users db) = Some actor ->
    CommentController.removeOwn id user db
    = (if (comment_userId comment =? caller_id user)
          || Policy.member (user_role actor) [ADMIN; EDITOR]
       then comment_delete_done id db
       else (Throw (Http (ForbiddenException "You can only delete your own comments")),
             db))
    /\ (caller_role user = "SUPER_ADMIN" ->
        CommentController.remove id user db = comment_delete_done id db).
Proof.
  intros id user db comment actor Hc Hactor. split.
  - unfold CommentController.removeOwn, CommentService.remove, try_catch, bind.
    rewrite comment_findUnique_runs, Hc. cbn [String.eqb Ascii.eqb Bool.eqb andb].
    destruct (comment_userId comment =? caller_id user) eqn:Eown; cbn [negb orb ret].
    + rewrite (@comment_delete_runs _ _ _ Hc). reflexivity.
    + rewrite user_findUnique_id_runs, Hactor. unfold CommentService.role_is_not.
      destruct (user_role actor); simpl;
        try rewrite (@comment_delete_runs _ _ _ Hc); reflexivity.
  - intro Hsa. unfold CommentController.remove. rewrite Hsa.
    apply (@super_admin_deletes id (caller_id user) db comment Hc).
Qed.

(** X18, worked: SUPER_ADMIN root (id 1) and the comment of carol, by the
    two routes. *)
Lemma remove_own_drops_the_presented_role_witness :
  find (fun c => comment_id c =? 1) (comments Fixture.db0) = Some Fixture.remark
  /\ find (Prisma.has_id 1) (users Fixture.db0) = Some Fixture.root
  /\ CommentController.removeOwn 1 (mkRequestUser 1 "SUPER_ADMIN") Fixture.db0
     = (Throw (Http (ForbiddenException "You can only delete your own comments")),
        Fixture.db0)
  /\ CommentController.remove 1 (mkRequestUser 1 "SUPER_ADMIN") Fixture.db0
     = (Return "Comment deleted successfully", set_comments [] Fixture.db0).
Proof.
  split; [reflexivity | split; [reflexivity |]].
  pose proof (@remove_own_drops_the_presented_role 1 (mkRequestUser 1 "SUPER_ADMIN")
                Fixture.db0 Fixture.remark Fixture.root eq_refl eq_refl) as [Hown Hany].
  split; [exact Hown | exact (Hany eq_refl)].
Defined.
